(** * OctomapManager: calibration, transform lookup and frame dispatch

    A shallow embedding of [octomap_world/src/octomap_manager.cc].  The
    manager is a ROS node object: its members are a record, each member
    function is a computation that threads the record and appends to a trace
    of the calls it makes on its collaborators (rosconsole, the tf listener,
    the node handle and the [OctomapWorld] base class). *)

From Stdlib Require Import List String ZArith NArith Bool Lia DecimalString.
Import ListNotations.
Open Scope string_scope.

Set Implicit Arguments.

(** * Values exchanged with ROS *)

(** [ros::Time]: two [uint32] fields. *)
Record Time : Type := mkTime { sec : N; nsec : N }.

(** [ros::Time(0)], which tf reads as "the latest available". *)
Definition Time_0 : Time := mkTime 0 0.

(** [std_msgs::Header], without the sequence number (never read here). *)
Record Header : Type := mkHeader { stamp : Time; frame_id : string }.

(** A fixed-size column of four coefficients. *)
Record Vec4 (A : Type) : Type := vec4 { v0 : A; v1 : A; v2 : A; v3 : A }.

Definition vec4_get {A} (v : Vec4 A) (i : nat) : A :=
  match i with
  | 0 => v0 v
  | 1 => v1 v
  | 2 => v2 v
  | _ => v3 v
  end.

Definition vec4_init {A} (f : nat -> A) : Vec4 A :=
  vec4 (f 0) (f 1) (f 2) (f 3).

(** The result of calling a C++ function declared to return [A]: either a
    [return] statement ran, or control flowed off the closing brace and no
    value was produced. *)
Inductive Returned (A : Type) : Type :=
| Value (a : A)
| NoReturn.
Arguments NoReturn {A}.

(** Decimal text of a [size_t], as [operator<<] prints it. *)
Definition string_of_size (n : nat) : string :=
  NilEmpty.string_of_uint (Nat.to_uint n).

(** * Collaborators

    Everything the translation unit uses but does not define: scalar types,
    message payloads, the conversions of minkindr_conversions, the stereo
    helper [getQForROSCameras] and the [OctomapWorld] base class. *)
Class Collaborators : Type := {
  (** [double] *)
  D : Type;
  D_0 : D;
  D_1 : D;
  (** scalar of [full_image_size_] (declared in the header) and the C++
      conversion of an integer value to it *)
  ImageScalar : Type;
  scalar_of_integer : Z -> ImageScalar;
  (** [tf::StampedTransform], kindr's [Transformation] and
      [tf::transformTFToKindr] *)
  StampedTransform : Type;
  Transformation : Type;
  transformTFToKindr : StampedTransform -> Transformation;
  (** [geometry_msgs::Vector3], [Eigen::Vector3d], [tf::vectorMsgToKindr] *)
  Vector3Msg : Type;
  Vector3d : Type;
  vectorMsgToKindr : Vector3Msg -> Vector3d;
  (** image and cloud bodies, never inspected by the manager *)
  DisparityData : Type;
  PointCloudData : Type;
  (** state of the [OctomapWorld] base-class subobject *)
  OctomapWorld : Type;
}.

Section Values.

Context `{C : Collaborators}.

(** ** Eigen matrices *)

(** [Eigen::Matrix4d]: default (column-major) storage, four columns. *)
Definition Matrix4d : Type := Vec4 (Vec4 D).

Definition coeff (m : Matrix4d) (i j : nat) : D :=
  vec4_get (vec4_get m j) i.

(** Coefficient-wise construction, as Eigen's dense assignment does. *)
Definition Matrix4d_init (f : nat -> nat -> D) : Matrix4d :=
  vec4_init (fun j => vec4_init (fun i => f i j)).

(** [Eigen::Matrix4d::Identity()] *)
Definition Identity : Matrix4d :=
  Matrix4d_init (fun i j => if Nat.eqb i j then D_1 else D_0).

(** [Eigen::Map<Eigen::Matrix<double, 4, 4, Eigen::RowMajor> >] over the
    buffer of a [std::vector<double>]: coefficient (i, j) is [data()[4*i+j]]. *)
Definition RowMajorMap_coeff (data : list D) (i j : nat) : D :=
  nth (4 * i + j) data D_0.

(** The sixteen coefficients read row after row. *)
Definition row_major (m : Matrix4d) : list D :=
  flat_map (fun i => map (fun j => coeff m i j) [0; 1; 2; 3]) [0; 1; 2; 3].

(** [Eigen::Vector2]: x and y. *)
Definition Vector2 : Type := (ImageScalar * ImageScalar)%type.

(** ** Messages *)

(** [sensor_msgs::CameraInfo]: the image size and the calibration arrays. *)
Record CameraInfo : Type := mkCameraInfo {
  info_header : Header;
  height : N;
  width : N;
  info_D : list D;
  info_K : list D;
  info_R : list D;
  info_P : list D
}.

(** [stereo_msgs::DisparityImage] *)
Record DisparityImage : Type := mkDisparityImage {
  disparity_header : Header;
  disparity_data : DisparityData
}.

(** [sensor_msgs::PointCloud2] *)
Record PointCloud2 : Type := mkPointCloud2 {
  pointcloud_header : Header;
  pointcloud_data : PointCloudData
}.

(** [volumetric_msgs::SetBoxOccupancy::Request] *)
Record SetBoxOccupancyRequest : Type := mkSetBoxOccupancyRequest {
  box_center : Vector3Msg;
  box_size : Vector3Msg;
  set_occupied : bool
}.

(** [OctomapParameters], the fields read from the parameter server. *)
Record OctomapParameters : Type := mkOctomapParameters {
  resolution : D;
  probability_hit : D;
  probability_miss : D;
  threshold_min : D;
  threshold_max : D;
  threshold_occupancy : D;
  filter_speckles : bool;
  sensor_max_range : D;
  visualize_min_z : D;
  visualize_max_z : D
}.

(** ** The tf listener

    What the listener's buffer answers when queried.  The buffer is filled
    by the listener's own thread, so the two answers are independent. *)
Record TransformListener : Type := mkTransformListener {
  (** [canTransform(target, source, time)] *)
  tf_canTransform : string -> string -> Time -> bool;
  (** [lookupTransform(target, source, time, out)]: the transform, or the
      [what()] of the [tf::TransformException] it throws *)
  tf_lookupTransform : string -> string -> Time -> StampedTransform + string
}.

(** ** The private node handle: parameter server and service registry *)
Record NodeHandle : Type := mkNodeHandle {
  param_string : string -> option string;
  param_double : string -> option D;
  param_bool : string -> option bool;
  param_scalar : string -> option ImageScalar;
  param_double_vector : string -> option (list D)
}.

(** [nh.param(key, val, default)] *)
Definition param {A} (lookup : string -> option A) (key : string)
  (default : A) : A :=
  match lookup key with
  | Some v => v
  | None => default
  end.

(** The member functions registered as service callbacks. *)
Inductive ServiceCallback : Type :=
| resetMapCallback_fn
| publishAllCallback_fn
| getOctomapCallback_fn
| saveOctomapCallback_fn
| loadOctomapCallback_fn
| setBoxOccupancyCallback_fn.

(** [ros::ServiceServer]: [None] is the default-constructed empty handle,
    [Some] the handle returned by [advertiseService]. *)
Definition ServiceServer : Type := option (string * ServiceCallback).

End Values.

(** * The [OctomapWorld] base class and the stereo helper

    Member functions of the base class act on its state; they are defined in
    other translation units. *)
Class WorldBase `{C : Collaborators} : Type := {
  (** [OctomapParameters::OctomapParameters()] *)
  default_parameters : OctomapParameters;
  setOctomapParameters : OctomapParameters -> OctomapWorld -> OctomapWorld;
  resetMap : OctomapWorld -> OctomapWorld;
  loadOctomapFromFile : string -> OctomapWorld -> bool * OctomapWorld;
  insertDisparityImage :
    Transformation -> DisparityImage -> Matrix4d -> Vector2 ->
    OctomapWorld -> OctomapWorld;
  insertPointcloud :
    Transformation -> PointCloud2 -> OctomapWorld -> OctomapWorld;
  setOccupied : Vector3d -> Vector3d -> OctomapWorld -> OctomapWorld;
  setFree : Vector3d -> Vector3d -> OctomapWorld -> OctomapWorld;
  (** [getQForROSCameras(left, right)] *)
  getQForROSCameras : CameraInfo -> CameraInfo -> Matrix4d
}.

Section Manager.

Context `{W : WorldBase}.

(** ** Members of [OctomapManager] *)

(** The members this translation unit reads or writes in the functions
    below; [world] is the base-class subobject.  A [CameraInfoPtr] is a
    shared pointer, [None] when null. *)
Record OctomapManager : Type := mkOctomapManager {
  nh_private_ : NodeHandle;
  world_frame_ : string;
  Q_initialized_ : bool;
  Q_ : Matrix4d;
  full_image_size_ : Vector2;
  map_publish_frequency_ : D;
  left_info_ : option CameraInfo;
  right_info_ : option CameraInfo;
  tf_listener_ : TransformListener;
  reset_map_service_ : ServiceServer;
  publish_all_service_ : ServiceServer;
  get_map_service_ : ServiceServer;
  save_octree_service_ : ServiceServer;
  load_octree_service_ : ServiceServer;
  world : OctomapWorld
}.

Definition set_world_frame_ (v : string) (m : OctomapManager) :=
  mkOctomapManager (nh_private_ m) v (Q_initialized_ m) (Q_ m)
    (full_image_size_ m) (map_publish_frequency_ m) (left_info_ m)
    (right_info_ m) (tf_listener_ m) (reset_map_service_ m)
    (publish_all_service_ m) (get_map_service_ m) (save_octree_service_ m)
    (load_octree_service_ m) (world m).

Definition set_Q_initialized_ (v : bool) (m : OctomapManager) :=
  mkOctomapManager (nh_private_ m) (world_frame_ m) v (Q_ m)
    (full_image_size_ m) (map_publish_frequency_ m) (left_info_ m)
    (right_info_ m) (tf_listener_ m) (reset_map_service_ m)
    (publish_all_service_ m) (get_map_service_ m) (save_octree_service_ m)
    (load_octree_service_ m) (world m).

Definition set_Q_ (v : Matrix4d) (m : OctomapManager) :=
  mkOctomapManager (nh_private_ m) (world_frame_ m) (Q_initialized_ m) v
    (full_image_size_ m) (map_publish_frequency_ m) (left_info_ m)
    (right_info_ m) (tf_listener_ m) (reset_map_service_ m)
    (publish_all_service_ m) (get_map_service_ m) (save_octree_service_ m)
    (load_octree_service_ m) (world m).

Definition set_full_image_size_ (v : Vector2) (m : OctomapManager) :=
  mkOctomapManager (nh_private_ m) (world_frame_ m) (Q_initialized_ m) (Q_ m)
    v (map_publish_frequency_ m) (left_info_ m)
    (right_info_ m) (tf_listener_ m) (reset_map_service_ m)
    (publish_all_service_ m) (get_map_service_ m) (save_octree_service_ m)
    (load_octree_service_ m) (world m).

Definition set_map_publish_frequency_ (v : D) (m : OctomapManager) :=
  mkOctomapManager (nh_private_ m) (world_frame_ m) (Q_initialized_ m) (Q_ m)
    (full_image_size_ m) v (left_info_ m)
    (right_info_ m) (tf_listener_ m) (reset_map_service_ m)
    (publish_all_service_ m) (get_map_service_ m) (save_octree_service_ m)
    (load_octree_service_ m) (world m).

Definition set_left_info_ (v : option CameraInfo) (m : OctomapManager) :=
  mkOctomapManager (nh_private_ m) (world_frame_ m) (Q_initialized_ m) (Q_ m)
    (full_image_size_ m) (map_publish_frequency_ m) v
    (right_info_ m) (tf_listener_ m) (reset_map_service_ m)
    (publish_all_service_ m) (get_map_service_ m) (save_octree_service_ m)
    (load_octree_service_ m) (world m).

Definition set_right_info_ (v : option CameraInfo) (m : OctomapManager) :=
  mkOctomapManager (nh_private_ m) (world_frame_ m) (Q_initialized_ m) (Q_ m)
    (full_image_size_ m) (map_publish_frequency_ m) (left_info_ m)
    v (tf_listener_ m) (reset_map_service_ m)
    (publish_all_service_ m) (get_map_service_ m) (save_octree_service_ m)
    (load_octree_service_ m) (world m).

Definition set_reset_map_service_ (v : ServiceServer) (m : OctomapManager) :=
  mkOctomapManager (nh_private_ m) (world_frame_ m) (Q_initialized_ m) (Q_ m)
    (full_image_size_ m) (map_publish_frequency_ m) (left_info_ m)
    (right_info_ m) (tf_listener_ m) v
    (publish_all_service_ m) (get_map_service_ m) (save_octree_service_ m)
    (load_octree_service_ m) (world m).

Definition set_publish_all_service_ (v : ServiceServer) (m : OctomapManager) :=
  mkOctomapManager (nh_private_ m) (world_frame_ m) (Q_initialized_ m) (Q_ m)
    (full_image_size_ m) (map_publish_frequency_ m) (left_info_ m)
    (right_info_ m) (tf_listener_ m) (reset_map_service_ m)
    v (get_map_service_ m) (save_octree_service_ m)
    (load_octree_service_ m) (world m).

Definition set_get_map_service_ (v : ServiceServer) (m : OctomapManager) :=
  mkOctomapManager (nh_private_ m) (world_frame_ m) (Q_initialized_ m) (Q_ m)
    (full_image_size_ m) (map_publish_frequency_ m) (left_info_ m)
    (right_info_ m) (tf_listener_ m) (reset_map_service_ m)
    (publish_all_service_ m) v (save_octree_service_ m)
    (load_octree_service_ m) (world m).

Definition set_save_octree_service_ (v : ServiceServer) (m : OctomapManager) :=
  mkOctomapManager (nh_private_ m) (world_frame_ m) (Q_initialized_ m) (Q_ m)
    (full_image_size_ m) (map_publish_frequency_ m) (left_info_ m)
    (right_info_ m) (tf_listener_ m) (reset_map_service_ m)
    (publish_all_service_ m) (get_map_service_ m) v
    (load_octree_service_ m) (world m).

Definition set_load_octree_service_ (v : ServiceServer) (m : OctomapManager) :=
  mkOctomapManager (nh_private_ m) (world_frame_ m) (Q_initialized_ m) (Q_ m)
    (full_image_size_ m) (map_publish_frequency_ m) (left_info_ m)
    (right_info_ m) (tf_listener_ m) (reset_map_service_ m)
    (publish_all_service_ m) (get_map_service_ m) (save_octree_service_ m)
    v (world m).

Definition set_world (v : OctomapWorld) (m : OctomapManager) :=
  mkOctomapManager (nh_private_ m) (world_frame_ m) (Q_initialized_ m) (Q_ m)
    (full_image_size_ m) (map_publish_frequency_ m) (left_info_ m)
    (right_info_ m) (tf_listener_ m) (reset_map_service_ m)
    (publish_all_service_ m) (get_map_service_ m) (save_octree_service_ m)
    (load_octree_service_ m) v.

(** ** Calls made on collaborators *)
Inductive Event : Type :=
| ROS_ERROR (msg : string)
| ROS_WARN (msg : string)
| ROS_WARN_THROTTLE (period : Z) (msg : string)
| canTransform_call (target source : string) (t : Time)
| lookupTransform_call (target source : string) (t : Time)
| advertiseService_call (name : string) (cb : ServiceCallback)
| getQForROSCameras_call (l r : CameraInfo)
| setOctomapParameters_call (p : OctomapParameters)
| resetMap_call
| loadOctomapFromFile_call (path : string)
| insertDisparityImage_call (T : Transformation) (d : DisparityImage)
    (Q : Matrix4d) (size : Vector2)
| insertPointcloud_call (T : Transformation) (p : PointCloud2)
| setOccupied_call (center size : Vector3d)
| setFree_call (center size : Vector3d).

(** ** Member functions as computations

    A member function takes the object, and yields its result, the object
    afterwards and the calls it made, oldest first. *)
Definition M (A : Type) : Type :=
  OctomapManager -> A * OctomapManager * list Event.

Definition ret {A} (a : A) : M A := fun m => (a, m, []).

Definition bind {A B} (c : M A) (k : A -> M B) : M B :=
  fun m =>
    let '(a, m1, t1) := c m in
    let '(b, m2, t2) := k a m1 in
    (b, m2, (t1 ++ t2)%list).

Definition this : M OctomapManager := fun m => (m, m, []).

Definition assign (f : OctomapManager -> OctomapManager) : M unit :=
  fun m => (tt, f m, []).

Definition emit (e : Event) : M unit := fun m => (tt, m, [e]).

(** A call of a base-class member function that returns nothing. *)
Definition base_call (e : Event) (f : OctomapWorld -> OctomapWorld) : M unit :=
  fun m => (tt, set_world (f (world m)) m, [e]).

Definition result {A} (r : A * OctomapManager * list Event) : A :=
  fst (fst r).
Definition after {A} (r : A * OctomapManager * list Event) : OctomapManager :=
  snd (fst r).
Definition calls {A} (r : A * OctomapManager * list Event) : list Event :=
  snd r.

End Manager.

Declare Scope mgr_scope.
Delimit Scope mgr_scope with mgr.
Notation "x <- c ;; k" := (bind c (fun x => k))
  (at level 100, c at next level, right associativity) : mgr_scope.
Notation "c ;; k" := (bind c (fun _ => k))
  (at level 100, right associativity) : mgr_scope.

Section Members.

Context `{W : WorldBase}.

Local Open Scope mgr_scope.

(** ** Queries on collaborators *)

(** [tf_listener_.canTransform(target, source, time)] *)
Definition canTransform (target source : string) (t : Time) : M bool :=
  fun m =>
    (tf_canTransform (tf_listener_ m) target source t, m,
     [canTransform_call target source t]).

(** [tf_listener_.lookupTransform(target, source, time, out)] *)
Definition tf_lookup (target source : string) (t : Time)
  : M (StampedTransform + string) :=
  fun m =>
    (tf_lookupTransform (tf_listener_ m) target source t, m,
     [lookupTransform_call target source t]).

(** [nh_private_.advertiseService(name, callback, this)] *)
Definition advertiseService (name : string) (cb : ServiceCallback)
  : M ServiceServer :=
  emit (advertiseService_call name cb) ;;
  ret (Some (name, cb)).

(** ** Construction *)

(** The member initialisers of the constructor, before its body runs. *)
Definition member_initializers (nh_private : NodeHandle)
  (tf : TransformListener) (base : OctomapWorld) : OctomapManager :=
  mkOctomapManager nh_private "world" false Identity
    (scalar_of_integer 752, scalar_of_integer 480) D_0 None None tf
    None None None None None base.

(** ** Calibration *)

(** [OctomapManager::setQFromParams] *)
Definition setQFromParams (Q_vec : list D) : M bool :=
  if negb (Nat.eqb (List.length Q_vec) 16) then
    emit (ROS_ERROR
            ("Invalid Q matrix size, expected size: 16, actual size: "
               ++ string_of_size (List.length Q_vec))) ;;
    ret false
  else
    assign (set_Q_ (Matrix4d_init (RowMajorMap_coeff Q_vec))) ;;
    ret true.

(** [OctomapManager::setParametersFromROS] *)
Definition setParametersFromROS : M unit :=
  m <- this ;;
  let nh := nh_private_ m in
  let d := default_parameters in
  assign (set_world_frame_ (param (param_string nh) "tf_frame" (world_frame_ m))) ;;
  let params :=
    mkOctomapParameters
      (param (param_double nh) "resolution" (resolution d))
      (param (param_double nh) "probability_hit" (probability_hit d))
      (param (param_double nh) "probability_miss" (probability_miss d))
      (param (param_double nh) "threshold_min" (threshold_min d))
      (param (param_double nh) "threshold_max" (threshold_max d))
      (param (param_double nh) "threshold_occupancy" (threshold_occupancy d))
      (param (param_bool nh) "filter_speckles" (filter_speckles d))
      (param (param_double nh) "sensor_max_range" (sensor_max_range d))
      (param (param_double nh) "visualize_min_z" (visualize_min_z d))
      (param (param_double nh) "visualize_max_z" (visualize_max_z d)) in
  assign (fun m =>
    set_full_image_size_
      (param (param_scalar nh) "full_image_width" (fst (full_image_size_ m)),
       snd (full_image_size_ m)) m) ;;
  assign (fun m =>
    set_full_image_size_
      (fst (full_image_size_ m),
       param (param_scalar nh) "full_image_height" (snd (full_image_size_ m))) m) ;;
  assign (fun m =>
    set_map_publish_frequency_
      (param (param_double nh) "map_publish_frequency"
         (map_publish_frequency_ m)) m) ;;
  (* Try to initialize Q matrix from parameters, if available. *)
  match param_double_vector nh "Q" with
  | Some Q_vec =>
      ok <- setQFromParams Q_vec ;;
      assign (set_Q_initialized_ ok)
  | None => ret tt
  end ;;
  (* Set the parent class parameters. *)
  base_call (setOctomapParameters_call params) (setOctomapParameters params).

(** [OctomapManager::calculateQ].  It dereferences both descriptors; its
    two callers test them first, and with a null one the C++ has no defined
    behaviour (here: nothing happens). *)
Definition calculateQ : M unit :=
  m <- this ;;
  match left_info_ m, right_info_ m with
  | Some l, Some r =>
      emit (getQForROSCameras_call l r) ;;
      assign (set_Q_ (getQForROSCameras l r)) ;;
      assign (fun m =>
        set_full_image_size_
          (scalar_of_integer (Z.of_N (width l)), snd (full_image_size_ m)) m) ;;
      assign (fun m =>
        set_full_image_size_
          (fst (full_image_size_ m), scalar_of_integer (Z.of_N (height l))) m) ;;
      assign (set_Q_initialized_ true)
  | _, _ => ret tt
  end.

(** A shared pointer in a boolean context. *)
Definition non_null {A} (p : option A) : bool :=
  match p with
  | Some _ => true
  | None => false
  end.

(** [OctomapManager::leftCameraInfoCallback] *)
Definition leftCameraInfoCallback (left_info : option CameraInfo) : M unit :=
  assign (set_left_info_ left_info) ;;
  m <- this ;;
  if non_null (left_info_ m) && non_null (right_info_ m)
     && negb (Q_initialized_ m)
  then calculateQ
  else ret tt.

(** [OctomapManager::rightCameraInfoCallback] *)
Definition rightCameraInfoCallback (right_info : option CameraInfo) : M unit :=
  assign (set_right_info_ right_info) ;;
  m <- this ;;
  if non_null (left_info_ m) && non_null (right_info_ m)
     && negb (Q_initialized_ m)
  then calculateQ
  else ret tt.

(** ** Transform lookup *)

(** [OctomapManager::lookupTransform].  The C++ returns a [bool] and writes
    the transform through its last argument only before returning [true]:
    [Some t] stands for [true] with [t] written, [None] for [false]. *)
Definition lookupTransform (from_frame to_frame : string) (timestamp : Time)
  : M (option Transformation) :=
  let time_to_lookup := timestamp in
  (* If this transform isn't possible at the time, then try to just look up
     the latest. *)
  can <- canTransform to_frame from_frame time_to_lookup ;;
  time_to_lookup <-
    (if negb can then
       emit (ROS_WARN
               "Using latest TF transform instead of timestamp match.") ;;
       ret Time_0
     else ret time_to_lookup) ;;
  r <- tf_lookup to_frame from_frame time_to_lookup ;;
  match r with
  | inr what =>
      emit (ROS_ERROR
              ("Error getting TF transform from sensor data: " ++ what)) ;;
      ret None
  | inl tf_transform => ret (Some (transformTFToKindr tf_transform))
  end.

(** ** Frame dispatch *)

(** [OctomapManager::insertDisparityImageWithTf] *)
Definition insertDisparityImageWithTf (disparity : DisparityImage) : M unit :=
  m <- this ;;
  if negb (Q_initialized_ m) then
    emit (ROS_WARN_THROTTLE 1
            "No camera info available yet, skipping adding disparity.")
  else
    (* Look up transform from sensor frame to world frame. *)
    found <- lookupTransform (frame_id (disparity_header disparity))
               (world_frame_ m) (stamp (disparity_header disparity)) ;;
    match found with
    | Some sensor_to_world =>
        base_call
          (insertDisparityImage_call sensor_to_world disparity (Q_ m)
             (full_image_size_ m))
          (insertDisparityImage sensor_to_world disparity (Q_ m)
             (full_image_size_ m))
    | None => ret tt
    end.

(** [OctomapManager::insertPointcloudWithTf] *)
Definition insertPointcloudWithTf (pointcloud : PointCloud2) : M unit :=
  m <- this ;;
  (* Look up transform from sensor frame to world frame. *)
  found <- lookupTransform (frame_id (pointcloud_header pointcloud))
             (world_frame_ m) (stamp (pointcloud_header pointcloud)) ;;
  match found with
  | Some sensor_to_world =>
      base_call (insertPointcloud_call sensor_to_world pointcloud)
        (insertPointcloud sensor_to_world pointcloud)
  | None => ret tt
  end.

(** ** Services *)

(** [OctomapManager::advertiseServices] *)
Definition advertiseServices : M unit :=
  h <- advertiseService "reset_map" resetMapCallback_fn ;;
  assign (set_reset_map_service_ h) ;;
  h <- advertiseService "publish_all" publishAllCallback_fn ;;
  assign (set_publish_all_service_ h) ;;
  h <- advertiseService "get_map" getOctomapCallback_fn ;;
  assign (set_get_map_service_ h) ;;
  h <- advertiseService "save_map" saveOctomapCallback_fn ;;
  assign (set_save_octree_service_ h) ;;
  h <- advertiseService "load_map" loadOctomapCallback_fn ;;
  assign (set_load_octree_service_ h) ;;
  h <- advertiseService "set_box_occupancy" setBoxOccupancyCallback_fn ;;
  assign (set_load_octree_service_ h).

(** [OctomapManager::resetMapCallback] *)
Definition resetMapCallback : M (Returned bool) :=
  base_call resetMap_call resetMap ;;
  ret (Value true).

(** [OctomapManager::loadOctomapCallback] *)
Definition loadOctomapCallback (file_path : string) : M (Returned bool) :=
  fun m =>
    let '(ok, w) := loadOctomapFromFile file_path (world m) in
    (Value ok, set_world w m, [loadOctomapFromFile_call file_path]).

(** [OctomapManager::setBoxOccupancyCallback] *)
Definition setBoxOccupancyCallback (request : SetBoxOccupancyRequest)
  : M (Returned bool) :=
  let bounding_box_center := vectorMsgToKindr (box_center request) in
  let bounding_box_size := vectorMsgToKindr (box_size request) in
  let set_occupied := set_occupied request in
  (if set_occupied then
     base_call (setOccupied_call bounding_box_center bounding_box_size)
       (setOccupied bounding_box_center bounding_box_size)
   else
     base_call (setFree_call bounding_box_center bounding_box_size)
       (setFree bounding_box_center bounding_box_size)) ;;
  ret NoReturn.

(** ** Message delivery

    [OctomapManager::subscribe] binds one callback to each of four topics;
    the transport then hands the messages to them one at a time. *)
Inductive Message : Type :=
| cam0_camera_info (left_info : option CameraInfo)
| cam1_camera_info (right_info : option CameraInfo)
| disparity_msg (disparity : DisparityImage)
| pointcloud_msg (pointcloud : PointCloud2).

Definition deliver (msg : Message) : M unit :=
  match msg with
  | cam0_camera_info i => leftCameraInfoCallback i
  | cam1_camera_info i => rightCameraInfoCallback i
  | disparity_msg d => insertDisparityImageWithTf d
  | pointcloud_msg p => insertPointcloudWithTf p
  end.

Fixpoint spin (msgs : list Message) : M unit :=
  match msgs with
  | [] => ret tt
  | msg :: rest => deliver msg ;; spin rest
  end.

(** ** Vocabulary of the properties *)

(** The five [ros::ServiceServer] members, by name. *)
Definition service_members (m : OctomapManager)
  : list (string * ServiceServer) :=
  [("reset_map_service_", reset_map_service_ m);
   ("publish_all_service_", publish_all_service_ m);
   ("get_map_service_", get_map_service_ m);
   ("save_octree_service_", save_octree_service_ m);
   ("load_octree_service_", load_octree_service_ m)].

Definition is_calibration_call (e : Event) : bool :=
  match e with
  | getQForROSCameras_call _ _ => true
  | _ => false
  end.

Definition is_insertion (e : Event) : bool :=
  match e with
  | insertDisparityImage_call _ _ _ _ => true
  | insertPointcloud_call _ _ => true
  | _ => false
  end.

Definition is_tf_query (e : Event) : bool :=
  match e with
  | canTransform_call _ _ _ => true
  | lookupTransform_call _ _ _ => true
  | _ => false
  end.

Definition latest_warning : string :=
  "Using latest TF transform instead of timestamp match.".

Definition not_ready_warning : string :=
  "No camera info available yet, skipping adding disparity.".

(** The run [r] computed the derived matrix from [l] and [rt]. *)
Definition derives (r : unit * OctomapManager * list Event)
  (l rt : CameraInfo) : Prop :=
  calls r = [getQForROSCameras_call l rt] /\
  Q_ (after r) = getQForROSCameras l rt /\
  Q_initialized_ (after r) = true /\
  full_image_size_ (after r)
  = (scalar_of_integer (Z.of_N (width l)),
     scalar_of_integer (Z.of_N (height l))).

(** The run [r], started from [m], left the calibration alone. *)
Definition keeps_calibration (m : OctomapManager)
  (r : unit * OctomapManager * list Event) : Prop :=
  calls r = [] /\
  Q_ (after r) = Q_ m /\
  Q_initialized_ (after r) = Q_initialized_ m /\
  full_image_size_ (after r) = full_image_size_ m.

(** What stays fixed once the flag is up. *)
Definition same_calibration (m m' : OctomapManager) : Prop :=
  Q_ m' = Q_ m /\
  Q_initialized_ m' = Q_initialized_ m /\
  full_image_size_ m' = full_image_size_ m.

(** The time [lookupTransform] queries the buffer at. *)
Definition lookup_time (m : OctomapManager) (from_frame to_frame : string)
  (timestamp : Time) : Time :=
  if tf_canTransform (tf_listener_ m) to_frame from_frame timestamp
  then timestamp
  else Time_0.

(** What the buffer answers at that time. *)
Definition lookup_answer (m : OctomapManager) (from_frame to_frame : string)
  (timestamp : Time) : StampedTransform + string :=
  tf_lookupTransform (tf_listener_ m) to_frame from_frame
    (lookup_time m from_frame to_frame timestamp).

Definition lookup_error (what : string) : Event :=
  ROS_ERROR ("Error getting TF transform from sensor data: " ++ what).

(** The first five statements of [advertiseServices]. *)
Definition advertise_through_load_map : M unit :=
  h <- advertiseService "reset_map" resetMapCallback_fn ;;
  assign (set_reset_map_service_ h) ;;
  h <- advertiseService "publish_all" publishAllCallback_fn ;;
  assign (set_publish_all_service_ h) ;;
  h <- advertiseService "get_map" getOctomapCallback_fn ;;
  assign (set_get_map_service_ h) ;;
  h <- advertiseService "save_map" saveOctomapCallback_fn ;;
  assign (set_save_octree_service_ h) ;;
  h <- advertiseService "load_map" loadOctomapCallback_fn ;;
  assign (set_load_octree_service_ h).

Definition load_map_handle : ServiceServer :=
  Some ("load_map", loadOctomapCallback_fn).

Definition set_box_occupancy_handle : ServiceServer :=
  Some ("set_box_occupancy", setBoxOccupancyCallback_fn).

End Members.

(** * A small concrete platform

    Integers stand for doubles and transforms, and the map is the list of
    the updates applied to it, newest first. *)
Module Bench.

#[export] Instance collaborators : Collaborators := {|
  D := Z;
  D_0 := 0%Z;
  D_1 := 1%Z;
  ImageScalar := Z;
  scalar_of_integer := fun z => z;
  StampedTransform := Z;
  Transformation := Z;
  transformTFToKindr := fun z => (z + 1)%Z;
  Vector3Msg := Z * Z * Z;
  Vector3d := Z * Z * Z;
  vectorMsgToKindr := fun v => v;
  DisparityData := list Z;
  PointCloudData := list Z;
  OctomapWorld := list string
|}.

#[export] Instance world_base : WorldBase := {|
  default_parameters :=
    mkOctomapParameters 1%Z 2%Z 3%Z 4%Z 5%Z 6%Z false 7%Z 8%Z 9%Z;
  setOctomapParameters := fun _ w => ("parameters" :: w)%list;
  resetMap := fun _ => [];
  loadOctomapFromFile := fun path w => (true, [path]);
  insertDisparityImage := fun _ _ _ _ w => ("disparity" :: w)%list;
  insertPointcloud := fun _ _ w => ("pointcloud" :: w)%list;
  setOccupied := fun _ _ w => ("occupied" :: w)%list;
  setFree := fun _ _ w => ("free" :: w)%list;
  getQForROSCameras := fun l r =>
    Matrix4d_init (fun i j =>
      if Nat.eqb i j then Z.of_N (width l) else Z.of_N (height r))
|}.

(** A tf buffer that knows only the latest world-from-camera transform. *)
Definition latest_only : TransformListener :=
  mkTransformListener
    (fun _ _ t => N.eqb (sec t) 0 && N.eqb (nsec t) 0)
    (fun target source t =>
       if N.eqb (sec t) 0 && N.eqb (nsec t) 0 then inl 41%Z
       else inr "Lookup would require extrapolation into the past.").

(** A tf buffer in which the frames were never connected. *)
Definition Disconnected (what : string) : TransformListener :=
  mkTransformListener (fun _ _ _ => false) (fun _ _ _ => inr what).

(** A tf buffer with dense history. *)
Definition dense : TransformListener :=
  mkTransformListener (fun _ _ _ => true)
    (fun _ _ t => inl (Z.of_N (sec t))).

Definition no_parameters : NodeHandle :=
  mkNodeHandle (fun _ => None) (fun _ => None) (fun _ => None)
    (fun _ => None) (fun _ => None).

(** A parameter server holding only [Q]. *)
Definition only_Q (Q_vec : list Z) : NodeHandle :=
  mkNodeHandle (fun _ => None) (fun _ => None) (fun _ => None)
    (fun _ => None)
    (fun key => if String.eqb key "Q" then Some Q_vec else None).

(** The object as the constructor's member initialisers leave it. *)
Definition fresh (nh : NodeHandle) (tf : TransformListener) : OctomapManager :=
  member_initializers nh tf [].

Definition sixteen : list Z :=
  [1; 0; 0; -320; 0; 1; 0; -240; 0; 0; 0; 500; 0; 0; 8; 0]%Z.

Definition left_cam : CameraInfo :=
  mkCameraInfo (mkHeader (mkTime 10 0) "cam0") 480 640 [] [] [] [].

Definition right_cam : CameraInfo :=
  mkCameraInfo (mkHeader (mkTime 10 0) "cam1") 481 641 [] [] [] [].

Definition frame_at (t : N) : DisparityImage :=
  mkDisparityImage (mkHeader (mkTime t 0) "cam0") [1; 2; 3]%Z.

Definition cloud_at (t : N) : PointCloud2 :=
  mkPointCloud2 (mkHeader (mkTime t 0) "cam0") [4; 5]%Z.

End Bench.

(** * The rest of the node: topics, publishers, timer and map snapshots *)

(** [octomap_msgs::Octomap]: a header and a body the manager never reads. *)
Record Octomap (Body : Type) : Type := mkOctomap {
  octomap_header : Header;
  octomap_body : Body
}.

(** What publishing needs beyond [WorldBase]: arithmetic on [double],
    the message bodies, and the snapshot members of the base class, each of
    which may also act on the base-class state. *)
Class Publishing `{W : WorldBase} : Type := {
  (** [operator>] and [operator/] on [double] *)
  D_gt : D -> D -> bool;
  D_div : D -> D -> D;
  (** [visualization_msgs::MarkerArray] and its default constructor *)
  MarkerArray : Type;
  MarkerArray_default : MarkerArray;
  (** body of [octomap_msgs::Octomap], default constructed *)
  OctomapBody : Type;
  OctomapBody_default : OctomapBody;
  (** [generateMarkerArray(tf_frame, &occupied, &free)] *)
  generateMarkerArray :
    string -> MarkerArray -> MarkerArray -> OctomapWorld ->
    MarkerArray * MarkerArray * OctomapWorld;
  (** [getOctomapBinaryMsg(&msg)] and [getOctomapFullMsg(&msg)] *)
  getOctomapBinaryMsg :
    Octomap OctomapBody -> OctomapWorld ->
    bool * Octomap OctomapBody * OctomapWorld;
  getOctomapFullMsg :
    Octomap OctomapBody -> OctomapWorld ->
    bool * Octomap OctomapBody * OctomapWorld;
  (** [writeOctomapToFile(path)] *)
  writeOctomapToFile : string -> OctomapWorld -> bool * OctomapWorld
}.

Section Node.

Context `{P : Publishing}.

(** A default-constructed [octomap_msgs::Octomap]. *)
Definition Octomap_default : Octomap OctomapBody :=
  mkOctomap (mkHeader Time_0 "") OctomapBody_default.

(** [msg.header.frame_id = frame] *)
Definition set_frame_id (frame : string) (msg : Octomap OctomapBody)
  : Octomap OctomapBody :=
  mkOctomap (mkHeader (stamp (octomap_header msg)) frame) (octomap_body msg).

(** The member functions bound to topics. *)
Inductive SubscriptionCallback : Type :=
| leftCameraInfoCallback_fn
| rightCameraInfoCallback_fn
| insertDisparityImageWithTf_fn
| insertPointcloudWithTf_fn.

(** [ros::Subscriber]: empty, or topic, queue size and callback. *)
Definition Subscriber : Type := option (string * nat * SubscriptionCallback).

Inductive MessageType : Type :=
| MarkerArray_type
| Octomap_type.

(** [ros::Publisher]: empty, or topic, queue size, latch flag and type. *)
Definition Publisher : Type := option (string * nat * bool * MessageType).

(** [ros::Timer]: empty, or the period in seconds given to
    [ros::Duration]; its callback is always [publishAllEvent]. *)
Definition Timer : Type := option D.

(** The manager together with its transport members. *)
Record Node : Type := mkNode {
  manager : OctomapManager;
  left_info_sub_ : Subscriber;
  right_info_sub_ : Subscriber;
  disparity_sub_ : Subscriber;
  pointcloud_sub_ : Subscriber;
  occupied_nodes_pub_ : Publisher;
  free_nodes_pub_ : Publisher;
  binary_map_pub_ : Publisher;
  full_map_pub_ : Publisher;
  map_publish_timer_ : Timer
}.

Definition set_manager (v : OctomapManager) (n : Node) :=
  mkNode v (left_info_sub_ n) (right_info_sub_ n) (disparity_sub_ n)
    (pointcloud_sub_ n) (occupied_nodes_pub_ n) (free_nodes_pub_ n)
    (binary_map_pub_ n) (full_map_pub_ n) (map_publish_timer_ n).

Definition set_left_info_sub_ (v : Subscriber) (n : Node) :=
  mkNode (manager n) v (right_info_sub_ n) (disparity_sub_ n)
    (pointcloud_sub_ n) (occupied_nodes_pub_ n) (free_nodes_pub_ n)
    (binary_map_pub_ n) (full_map_pub_ n) (map_publish_timer_ n).

Definition set_right_info_sub_ (v : Subscriber) (n : Node) :=
  mkNode (manager n) (left_info_sub_ n) v (disparity_sub_ n)
    (pointcloud_sub_ n) (occupied_nodes_pub_ n) (free_nodes_pub_ n)
    (binary_map_pub_ n) (full_map_pub_ n) (map_publish_timer_ n).

Definition set_disparity_sub_ (v : Subscriber) (n : Node) :=
  mkNode (manager n) (left_info_sub_ n) (right_info_sub_ n) v
    (pointcloud_sub_ n) (occupied_nodes_pub_ n) (free_nodes_pub_ n)
    (binary_map_pub_ n) (full_map_pub_ n) (map_publish_timer_ n).

Definition set_pointcloud_sub_ (v : Subscriber) (n : Node) :=
  mkNode (manager n) (left_info_sub_ n) (right_info_sub_ n) (disparity_sub_ n)
    v (occupied_nodes_pub_ n) (free_nodes_pub_ n)
    (binary_map_pub_ n) (full_map_pub_ n) (map_publish_timer_ n).

Definition set_occupied_nodes_pub_ (v : Publisher) (n : Node) :=
  mkNode (manager n) (left_info_sub_ n) (right_info_sub_ n) (disparity_sub_ n)
    (pointcloud_sub_ n) v (free_nodes_pub_ n)
    (binary_map_pub_ n) (full_map_pub_ n) (map_publish_timer_ n).

Definition set_free_nodes_pub_ (v : Publisher) (n : Node) :=
  mkNode (manager n) (left_info_sub_ n) (right_info_sub_ n) (disparity_sub_ n)
    (pointcloud_sub_ n) (occupied_nodes_pub_ n) v
    (binary_map_pub_ n) (full_map_pub_ n) (map_publish_timer_ n).

Definition set_binary_map_pub_ (v : Publisher) (n : Node) :=
  mkNode (manager n) (left_info_sub_ n) (right_info_sub_ n) (disparity_sub_ n)
    (pointcloud_sub_ n) (occupied_nodes_pub_ n) (free_nodes_pub_ n)
    v (full_map_pub_ n) (map_publish_timer_ n).

Definition set_full_map_pub_ (v : Publisher) (n : Node) :=
  mkNode (manager n) (left_info_sub_ n) (right_info_sub_ n) (disparity_sub_ n)
    (pointcloud_sub_ n) (occupied_nodes_pub_ n) (free_nodes_pub_ n)
    (binary_map_pub_ n) v (map_publish_timer_ n).

Definition set_map_publish_timer_ (v : Timer) (n : Node) :=
  mkNode (manager n) (left_info_sub_ n) (right_info_sub_ n) (disparity_sub_ n)
    (pointcloud_sub_ n) (occupied_nodes_pub_ n) (free_nodes_pub_ n)
    (binary_map_pub_ n) (full_map_pub_ n) v.

(** Calls made on collaborators by the node-level functions. *)
Inductive NodeEvent : Type :=
| manager_event (e : Event)
| subscribe_call (topic : string) (queue_size : nat)
    (cb : SubscriptionCallback)
| advertise_call (topic : string) (queue_size : nat) (latch : bool)
    (type : MessageType)
| createTimer_call (period : D)
| generateMarkerArray_call (tf_frame : string)
| getOctomapBinaryMsg_call
| getOctomapFullMsg_call
| writeOctomapToFile_call (path : string)
| publish_markers (pub : Publisher) (msg : MarkerArray)
| publish_octomap (pub : Publisher) (msg : Octomap OctomapBody).

(** Node-level member functions. *)
Definition N (A : Type) : Type := Node -> A * Node * list NodeEvent.

Definition nret {A} (a : A) : N A := fun n => (a, n, []).

Definition nbind {A B} (c : N A) (k : A -> N B) : N B :=
  fun n =>
    let '(a, n1, t1) := c n in
    let '(b, n2, t2) := k a n1 in
    (b, n2, (t1 ++ t2)%list).

Definition node : N Node := fun n => (n, n, []).

Definition nassign (f : Node -> Node) : N unit := fun n => (tt, f n, []).

Definition nemit (e : NodeEvent) : N unit := fun n => (tt, n, [e]).

(** Runs a member function of the manager inside the node. *)
Definition lift {A} (c : M A) : N A :=
  fun n =>
    let '(a, m, t) := c (manager n) in
    (a, set_manager m n, map manager_event t).

(** A base-class member that returns a value and may act on the map. *)
Definition base_query {A} (e : NodeEvent)
  (f : OctomapWorld -> A * OctomapWorld) : N A :=
  fun n =>
    let '(a, w) := f (world (manager n)) in
    (a, set_manager (set_world w (manager n)) n, [e]).

Definition node_result {A} (r : A * Node * list NodeEvent) : A :=
  fst (fst r).
Definition node_after {A} (r : A * Node * list NodeEvent) : Node :=
  snd (fst r).
Definition node_calls {A} (r : A * Node * list NodeEvent) : list NodeEvent :=
  snd r.

End Node.

Declare Scope node_scope.
Delimit Scope node_scope with node.
Notation "x <- c ;; k" := (nbind c (fun x => k))
  (at level 100, c at next level, right associativity) : node_scope.
Notation "c ;; k" := (nbind c (fun _ => k))
  (at level 100, right associativity) : node_scope.

Section NodeMembers.

Context `{P : Publishing}.

Local Open Scope node_scope.

(** [nh_.subscribe(topic, queue_size, callback, this)] *)
Definition nh_subscribe (topic : string) (queue_size : nat)
  (cb : SubscriptionCallback) : N Subscriber :=
  nemit (subscribe_call topic queue_size cb) ;;
  nret (Some (topic, queue_size, cb)).

(** [nh_private_.advertise<T>(topic, queue_size, latch)] *)
Definition advertise (type : MessageType) (topic : string)
  (queue_size : nat) (latch : bool) : N Publisher :=
  nemit (advertise_call topic queue_size latch type) ;;
  nret (Some (topic, queue_size, latch, type)).

(** [nh_private_.createTimer(ros::Duration(period), publishAllEvent, this)] *)
Definition createTimer (period : D) : N Timer :=
  nemit (createTimer_call period) ;;
  nret (Some period).

(** [OctomapManager::subscribe] *)
Definition subscribe : N unit :=
  s <- nh_subscribe "cam0/camera_info" 1 leftCameraInfoCallback_fn ;;
  nassign (set_left_info_sub_ s) ;;
  s <- nh_subscribe "cam1/camera_info" 1 rightCameraInfoCallback_fn ;;
  nassign (set_right_info_sub_ s) ;;
  s <- nh_subscribe "disparity" 40 insertDisparityImageWithTf_fn ;;
  nassign (set_disparity_sub_ s) ;;
  s <- nh_subscribe "pointcloud" 40 insertPointcloudWithTf_fn ;;
  nassign (set_pointcloud_sub_ s).

(** [OctomapManager::advertisePublishers] *)
Definition advertisePublishers : N unit :=
  p <- advertise MarkerArray_type "octomap_occupied" 1 true ;;
  nassign (set_occupied_nodes_pub_ p) ;;
  p <- advertise MarkerArray_type "octomap_free" 1 true ;;
  nassign (set_free_nodes_pub_ p) ;;
  p <- advertise Octomap_type "octomap_binary" 1 true ;;
  nassign (set_binary_map_pub_ p) ;;
  p <- advertise Octomap_type "octomap_full" 1 true ;;
  nassign (set_full_map_pub_ p) ;;
  n <- node ;;
  if D_gt (map_publish_frequency_ (manager n)) D_0 then
    t <- createTimer (D_div D_1 (map_publish_frequency_ (manager n))) ;;
    nassign (set_map_publish_timer_ t)
  else nret tt.

(** [OctomapManager::publishAll].  The [bool] results of the two snapshot
    members are discarded, as in the source. *)
Definition publishAll : N unit :=
  n <- node ;;
  nodes <- base_query (generateMarkerArray_call (world_frame_ (manager n)))
             (generateMarkerArray (world_frame_ (manager n))
                MarkerArray_default MarkerArray_default) ;;
  let occupied_nodes := fst nodes in
  let free_nodes := snd nodes in
  n <- node ;;
  nemit (publish_markers (occupied_nodes_pub_ n) occupied_nodes) ;;
  nemit (publish_markers (free_nodes_pub_ n) free_nodes) ;;
  binary <- base_query getOctomapBinaryMsg_call
              (getOctomapBinaryMsg Octomap_default) ;;
  full <- base_query getOctomapFullMsg_call
            (getOctomapFullMsg Octomap_default) ;;
  n <- node ;;
  let binary_map := set_frame_id (world_frame_ (manager n)) (snd binary) in
  let full_map := set_frame_id (world_frame_ (manager n)) (snd full) in
  nemit (publish_octomap (binary_map_pub_ n) binary_map) ;;
  nemit (publish_octomap (full_map_pub_ n) full_map).

(** [OctomapManager::publishAllEvent] *)
Definition publishAllEvent : N unit := publishAll.

(** [OctomapManager::publishAllCallback] *)
Definition publishAllCallback : N (Returned bool) :=
  publishAll ;;
  nret (Value true).

(** [OctomapManager::getOctomapCallback]: the verdict and [response.map]. *)
Definition getOctomapCallback (response_map : Octomap OctomapBody)
  : N (Returned bool * Octomap OctomapBody) :=
  r <- base_query getOctomapFullMsg_call (getOctomapFullMsg response_map) ;;
  nret (Value (fst r), snd r).

(** [OctomapManager::saveOctomapCallback] *)
Definition saveOctomapCallback (file_path : string) : N (Returned bool) :=
  ok <- base_query (writeOctomapToFile_call file_path)
          (writeOctomapToFile file_path) ;;
  nret (Value ok).

(** [OctomapManager::OctomapManager]: the member initialisers, then the
    four calls of the body.  The tf listener and the base class are default
    constructed; what they hold is given. *)
Definition OctomapManager_constructor (nh_private : NodeHandle)
  (tf : TransformListener) (base : OctomapWorld) : Node * list NodeEvent :=
  let r :=
    (lift setParametersFromROS ;;
     subscribe ;;
     lift advertiseServices ;;
     advertisePublishers)
      (mkNode (member_initializers nh_private tf base)
         None None None None None None None None None) in
  (node_after r, node_calls r).

(** ** Vocabulary for the node *)

Definition is_publication (e : NodeEvent) : bool :=
  match e with
  | publish_markers _ _ => true
  | publish_octomap _ _ => true
  | _ => false
  end.

Definition is_timer_creation (e : NodeEvent) : bool :=
  match e with
  | createTimer_call _ => true
  | _ => false
  end.

(** Topic and service registrations, which are what other nodes see. *)
Definition is_registration (e : NodeEvent) : bool :=
  match e with
  | subscribe_call _ _ _ => true
  | advertise_call _ _ _ _ => true
  | manager_event (advertiseService_call _ _) => true
  | _ => false
  end.

End NodeMembers.

(** * Fixtures for the node *)

Module NodeBench.
Import Bench.

(** Snapshots on the concrete platform: the binary snapshot fails and
    writes its own frame id, the full one succeeds. *)
#[export] Instance publishing : Publishing := {|
  D_gt := Z.gtb;
  D_div := Z.div;
  MarkerArray := list string;
  MarkerArray_default := [];
  OctomapBody := list Z;
  OctomapBody_default := [];
  generateMarkerArray := fun frame _ _ w =>
    (["occupied in " ++ frame], ["free in " ++ frame], w);
  getOctomapBinaryMsg := fun msg w =>
    (false, mkOctomap (mkHeader (mkTime 1 0) "odom") [1%Z], w);
  getOctomapFullMsg := fun msg w =>
    (true, mkOctomap (mkHeader (mkTime 1 0) "odom") [1; 2]%Z,
     ("snapshot" :: w)%list);
  writeOctomapToFile := fun path w => (negb (String.eqb path ""), w)
|}.

(** A parameter server with a frame name, an image size, a publication
    frequency and sixteen coefficients. *)
Definition configured : NodeHandle :=
  mkNodeHandle
    (fun key => if String.eqb key "tf_frame" then Some "map" else None)
    (fun key =>
       if String.eqb key "map_publish_frequency" then Some 1%Z else None)
    (fun _ => None)
    (fun key =>
       if String.eqb key "full_image_width" then Some 1280%Z
       else if String.eqb key "full_image_height" then Some 720%Z
       else None)
    (fun key => if String.eqb key "Q" then Some sixteen else None).

(** A tf buffer that passes the availability check at any time but can
    only serve the latest transform. *)
Definition racing : TransformListener :=
  mkTransformListener (fun _ _ _ => true)
    (fun _ _ t =>
       if N.eqb (sec t) 0 && N.eqb (nsec t) 0 then inl 5%Z
       else inr "extrapolation into the future").

Definition one_sided : list Message :=
  [cam0_camera_info (Some left_cam); disparity_msg (frame_at 1);
   cam0_camera_info (Some right_cam); pointcloud_msg (cloud_at 2);
   disparity_msg (frame_at 3); cam1_camera_info None].

End NodeBench.

(** * Further vocabulary *)

Section Observations.

Context `{W : WorldBase}.

(** A parameter server on which nothing is set. *)
Definition nothing_set (nh : NodeHandle) : Prop :=
  (forall key, param_string nh key = None) /\
  (forall key, param_double nh key = None) /\
  (forall key, param_bool nh key = None) /\
  (forall key, param_scalar nh key = None) /\
  (forall key, param_double_vector nh key = None).

(** The target frame of a tf query. *)
Definition tf_target (e : Event) : option string :=
  match e with
  | canTransform_call target _ _ => Some target
  | lookupTransform_call target _ _ => Some target
  | _ => None
  end.

(** Target frames of the tf queries of a trace, in order. *)
Fixpoint tf_targets (t : list Event) : list string :=
  match t with
  | [] => []
  | e :: rest =>
      match tf_target e with
      | Some f => f :: tf_targets rest
      | None => tf_targets rest
      end
  end.

Definition is_throttled_warning (e : Event) : bool :=
  match e with
  | ROS_WARN_THROTTLE _ _ => true
  | _ => false
  end.

Definition is_disparity_msg (msg : Message) : bool :=
  match msg with
  | disparity_msg _ => true
  | _ => false
  end.

(** The message is a non-null descriptor of the left camera. *)
Definition is_left_descriptor (msg : Message) : bool :=
  match msg with
  | cam0_camera_info (Some _) => true
  | _ => false
  end.

(** The message is a non-null descriptor of the right camera. *)
Definition is_right_descriptor (msg : Message) : bool :=
  match msg with
  | cam1_camera_info (Some _) => true
  | _ => false
  end.

Definition is_disparity_insertion (e : Event) : bool :=
  match e with
  | insertDisparityImage_call _ _ _ _ => true
  | _ => false
  end.

(** The run [r] of [msgs] from [m] ended with the flag down: nothing was
    derived, no disparity frame was inserted, and each disparity frame drew
    one throttled warning. *)
Definition still_waiting (m : OctomapManager) (msgs : list Message)
  (r : unit * OctomapManager * list Event) : Prop :=
  Q_initialized_ (after r) = false /\
  Q_ (after r) = Q_ m /\
  full_image_size_ (after r) = full_image_size_ m /\
  filter is_calibration_call (calls r) = [] /\
  filter is_disparity_insertion (calls r) = [] /\
  List.length (filter is_throttled_warning (calls r))
  = List.length (filter is_disparity_msg msgs).

(** Every member but the base-class subobject is as in [m]. *)
Definition only_world_changed (m m' : OctomapManager) : Prop :=
  m' = set_world (world m') m.

End Observations.

(** * Properties *)

Unset Implicit Arguments.

(** Unfolds the plumbing of a member function down to the record. *)
Ltac run :=
  unfold result, after, calls, bind, ret, this, assign, emit, base_call,
    canTransform, tf_lookup, advertiseService in *;
  cbn [fst snd] in *.

Section Properties.

Context `{W : WorldBase}.

Local Open Scope mgr_scope.

(** ** Explicit calibration *)

Lemma row_major_of_map (a0 a1 a2 a3 a4 a5 a6 a7 a8 a9 a10 a11 a12 a13 a14 a15 : D) :
  let l := [a0; a1; a2; a3; a4; a5; a6; a7; a8; a9; a10; a11; a12; a13; a14; a15] in
  row_major (Matrix4d_init (RowMajorMap_coeff l)) = l.
Proof. reflexivity. Qed.

Lemma length_16_inv {A} (l : list A) :
  List.length l = 16 ->
  exists a0 a1 a2 a3 a4 a5 a6 a7 a8 a9 a10 a11 a12 a13 a14 a15,
    l = [a0; a1; a2; a3; a4; a5; a6; a7; a8; a9; a10; a11; a12; a13; a14; a15].
Proof.
  intros H.
  do 16 (destruct l as [|? l]; [discriminate H|]).
  destruct l; [|discriminate H].
  repeat eexists.
Qed.

Lemma row_major_RowMajorMap (Q_vec : list D) :
  List.length Q_vec = 16 ->
  row_major (Matrix4d_init (RowMajorMap_coeff Q_vec)) = Q_vec.
Proof.
  intros H. apply length_16_inv in H.
  destruct H as (a0 & a1 & a2 & a3 & a4 & a5 & a6 & a7 & a8 & a9 & a10
                 & a11 & a12 & a13 & a14 & a15 & ->).
  apply row_major_of_map.
Qed.

Lemma setQFromParams_16 (m : OctomapManager) (Q_vec : list D) :
  List.length Q_vec = 16 ->
  setQFromParams Q_vec m
  = (true, set_Q_ (Matrix4d_init (RowMajorMap_coeff Q_vec)) m, []).
Proof.
  intros H. unfold setQFromParams. rewrite H. reflexivity.
Qed.

Lemma setQFromParams_not_16 (m : OctomapManager) (Q_vec : list D) :
  List.length Q_vec <> 16 ->
  setQFromParams Q_vec m
  = (false, m,
     [ROS_ERROR ("Invalid Q matrix size, expected size: 16, actual size: "
                   ++ string_of_size (List.length Q_vec))]).
Proof.
  intros H. unfold setQFromParams.
  destruct (Nat.eqb_spec (List.length Q_vec) 16) as [E|_]; [contradiction|].
  reflexivity.
Qed.

(** Configuration with a well-sized [Q]: the matrix is loaded and the flag
    is raised before [setParametersFromROS] returns. *)
Lemma setParametersFromROS_Q_16 (m : OctomapManager) (Q_vec : list D) :
  List.length Q_vec = 16 ->
  param_double_vector (nh_private_ m) "Q" = Some Q_vec ->
  Q_initialized_ (after (setParametersFromROS m)) = true /\
  Q_ (after (setParametersFromROS m)) = Matrix4d_init (RowMajorMap_coeff Q_vec).
Proof.
  intros Hlen Hq. unfold setParametersFromROS. run.
  rewrite Hq. run. rewrite setQFromParams_16 by exact Hlen.
  split; reflexivity.
Qed.

(** Configuration with an ill-sized [Q]: the matrix is kept, the error is
    reported, and the flag receives the [false] the setter returned. *)
Lemma setParametersFromROS_Q_not_16 (m : OctomapManager) (Q_vec : list D) :
  List.length Q_vec <> 16 ->
  param_double_vector (nh_private_ m) "Q" = Some Q_vec ->
  Q_initialized_ (after (setParametersFromROS m)) = false /\
  Q_ (after (setParametersFromROS m)) = Q_ m /\
  In (ROS_ERROR ("Invalid Q matrix size, expected size: 16, actual size: "
                   ++ string_of_size (List.length Q_vec)))
     (calls (setParametersFromROS m)).
Proof.
  intros Hlen Hq. unfold setParametersFromROS. run.
  rewrite Hq. run. rewrite setQFromParams_not_16 by exact Hlen.
  cbn. auto.
Qed.

(** C4: for every coefficient sequence of length exactly 16 the explicit
    setter [setQFromParams] succeeds (returns [true], reports nothing), the
    row-major flattening of the stored matrix is the input sequence, and
    [setParametersFromROS], which feeds it the [Q] parameter, leaves the
    readiness flag set with that same matrix stored. *)
Theorem explicit_calibration_sets_matrix_and_ready
  (m m' : OctomapManager) (Q_vec : list D) :
  List.length Q_vec = 16 ->
  param_double_vector (nh_private_ m) "Q" = Some Q_vec ->
  (result (setQFromParams Q_vec m') = true /\
   calls (setQFromParams Q_vec m') = [] /\
   row_major (Q_ (after (setQFromParams Q_vec m'))) = Q_vec) /\
  (Q_initialized_ (after (setParametersFromROS m)) = true /\
   row_major (Q_ (after (setParametersFromROS m))) = Q_vec).
Proof.
  intros Hlen Hq. split.
  - rewrite setQFromParams_16 by exact Hlen.
    repeat split. apply row_major_RowMajorMap, Hlen.
  - destruct (setParametersFromROS_Q_16 m Q_vec Hlen Hq) as [Hi HQ].
    split; [exact Hi|]. rewrite HQ. apply row_major_RowMajorMap, Hlen.
Qed.

(** C5: for every coefficient sequence whose length is not 16,
    [setQFromParams] returns [false], reports the invalid size with the
    actual length, and leaves the whole object, so the stored matrix and the
    readiness flag, as it was; at startup, where the constructor feeds it
    the [Q] parameter, matrix and flag keep their initial values. *)
Theorem explicit_calibration_rejects_wrong_size
  (m : OctomapManager) (Q_vec : list D) :
  List.length Q_vec <> 16 ->
  (result (setQFromParams Q_vec m) = false /\
   calls (setQFromParams Q_vec m)
   = [ROS_ERROR ("Invalid Q matrix size, expected size: 16, actual size: "
                   ++ string_of_size (List.length Q_vec))] /\
   after (setQFromParams Q_vec m) = m /\
   Q_ (after (setQFromParams Q_vec m)) = Q_ m /\
   Q_initialized_ (after (setQFromParams Q_vec m)) = Q_initialized_ m) /\
  (forall (nh : NodeHandle) (tf : TransformListener) (base : OctomapWorld),
      param_double_vector nh "Q" = Some Q_vec ->
      let start := member_initializers nh tf base in
      Q_ (after (setParametersFromROS start)) = Q_ start /\
      Q_initialized_ (after (setParametersFromROS start))
      = Q_initialized_ start).
Proof.
  intros Hlen. split.
  - rewrite setQFromParams_not_16 by exact Hlen. repeat split.
  - intros nh tf base Hq. cbv zeta.
    destruct (setParametersFromROS_Q_not_16
                (member_initializers nh tf base) Q_vec Hlen Hq)
      as (Hi & HQ & _).
    split; [exact HQ|exact Hi].
Qed.

(** ** Derived calibration *)

Lemma calculateQ_both (m : OctomapManager) (l r : CameraInfo) :
  left_info_ m = Some l ->
  right_info_ m = Some r ->
  derives (calculateQ m) l r /\
  left_info_ (after (calculateQ m)) = Some l /\
  right_info_ (after (calculateQ m)) = Some r.
Proof.
  intros Hl Hr. unfold derives, calculateQ. run.
  rewrite Hl, Hr. cbn. repeat split; assumption.
Qed.

Lemma leftCameraInfoCallback_skip (m : OctomapManager)
  (info : option CameraInfo) :
  non_null info && non_null (right_info_ m) && negb (Q_initialized_ m) = false ->
  leftCameraInfoCallback info m = (tt, set_left_info_ info m, []).
Proof.
  intros H. unfold leftCameraInfoCallback. run. cbn. rewrite H. reflexivity.
Qed.

Lemma rightCameraInfoCallback_skip (m : OctomapManager)
  (info : option CameraInfo) :
  non_null (left_info_ m) && non_null info && negb (Q_initialized_ m) = false ->
  rightCameraInfoCallback info m = (tt, set_right_info_ info m, []).
Proof.
  intros H. unfold rightCameraInfoCallback. run. cbn. rewrite H. reflexivity.
Qed.

Lemma leftCameraInfoCallback_compute (m : OctomapManager)
  (info : option CameraInfo) :
  non_null info && non_null (right_info_ m) && negb (Q_initialized_ m) = true ->
  leftCameraInfoCallback info m = calculateQ (set_left_info_ info m).
Proof.
  intros H. unfold leftCameraInfoCallback. run. cbn -[calculateQ].
  rewrite H.
  destruct (calculateQ (set_left_info_ info m)) as [[[] m2] t2]. reflexivity.
Qed.

Lemma rightCameraInfoCallback_compute (m : OctomapManager)
  (info : option CameraInfo) :
  non_null (left_info_ m) && non_null info && negb (Q_initialized_ m) = true ->
  rightCameraInfoCallback info m = calculateQ (set_right_info_ info m).
Proof.
  intros H. unfold rightCameraInfoCallback. run. cbn -[calculateQ].
  rewrite H.
  destruct (calculateQ (set_right_info_ info m)) as [[[] m2] t2]. reflexivity.
Qed.

(** C6: after an intrinsic descriptor arrives on either side and is stored,
    if both sides hold a descriptor and the readiness flag is down, the
    matrix is computed from the pair by [getQForROSCameras], the flag goes
    up and the expected image size becomes the left camera's width and
    height; if a side is missing or the flag is already up, no computation
    is made and matrix, flag and size stay as they were. *)
Theorem camera_info_arrival_derives_when_pair_complete
  (m : OctomapManager) (info : option CameraInfo) :
  let on_left := leftCameraInfoCallback info m in
  let on_right := rightCameraInfoCallback info m in
  (left_info_ (after on_left) = info /\
   right_info_ (after on_left) = right_info_ m) /\
  (right_info_ (after on_right) = info /\
   left_info_ (after on_right) = left_info_ m) /\
  (forall l r : CameraInfo,
      info = Some l -> right_info_ m = Some r -> Q_initialized_ m = false ->
      derives on_left l r) /\
  (forall l r : CameraInfo,
      left_info_ m = Some l -> info = Some r -> Q_initialized_ m = false ->
      derives on_right l r) /\
  (info = None \/ right_info_ m = None \/ Q_initialized_ m = true ->
   keeps_calibration m on_left) /\
  (left_info_ m = None \/ info = None \/ Q_initialized_ m = true ->
   keeps_calibration m on_right).
Proof.
  cbv zeta.
  assert (Hleft : left_info_ (after (leftCameraInfoCallback info m)) = info /\
                  right_info_ (after (leftCameraInfoCallback info m))
                  = right_info_ m).
  { destruct (non_null info && non_null (right_info_ m)
              && negb (Q_initialized_ m)) eqn:E.
    - rewrite leftCameraInfoCallback_compute by exact E.
      apply andb_prop in E. destruct E as [E _].
      apply andb_prop in E. destruct E as [E1 E2].
      destruct info as [l|]; [|discriminate E1].
      destruct (right_info_ m) as [r|] eqn:Hr; [|discriminate E2].
      destruct (calculateQ_both (set_left_info_ (Some l) m) l r)
        as (_ & Hl' & Hr'); [reflexivity|exact Hr|].
      split; assumption.
    - rewrite leftCameraInfoCallback_skip by exact E. split; reflexivity. }
  assert (Hright : right_info_ (after (rightCameraInfoCallback info m)) = info /\
                   left_info_ (after (rightCameraInfoCallback info m))
                   = left_info_ m).
  { destruct (non_null (left_info_ m) && non_null info
              && negb (Q_initialized_ m)) eqn:E.
    - rewrite rightCameraInfoCallback_compute by exact E.
      apply andb_prop in E. destruct E as [E _].
      apply andb_prop in E. destruct E as [E1 E2].
      destruct info as [r|]; [|discriminate E2].
      destruct (left_info_ m) as [l|] eqn:Hl; [|discriminate E1].
      destruct (calculateQ_both (set_right_info_ (Some r) m) l r)
        as (_ & Hl' & Hr'); [exact Hl|reflexivity|].
      split; assumption.
    - rewrite rightCameraInfoCallback_skip by exact E. split; reflexivity. }
  split; [exact Hleft|]. split; [exact Hright|].
  split; [|split; [|split]].
  - intros l r -> Hr Hq.
    rewrite leftCameraInfoCallback_compute by (rewrite Hr, Hq; reflexivity).
    apply calculateQ_both; [reflexivity|exact Hr].
  - intros l r Hl -> Hq.
    rewrite rightCameraInfoCallback_compute by (rewrite Hl, Hq; reflexivity).
    apply calculateQ_both; [exact Hl|reflexivity].
  - intros H. rewrite leftCameraInfoCallback_skip.
    + repeat split.
    + destruct H as [-> | [-> | ->]]; cbn;
        rewrite ?andb_false_r; reflexivity.
  - intros H. rewrite rightCameraInfoCallback_skip.
    + repeat split.
    + destruct H as [-> | [-> | ->]]; cbn;
        rewrite ?andb_false_r; reflexivity.
Qed.

(** ** Sequencing *)

Lemma bind_run {A B} (c : M A) (k : A -> M B) (m : OctomapManager) :
  bind c k m
  = (result (k (result (c m)) (after (c m))),
     after (k (result (c m)) (after (c m))),
     (calls (c m) ++ calls (k (result (c m)) (after (c m))))%list).
Proof.
  unfold bind, result, after, calls.
  destruct (c m) as [[a m1] t1]. cbn [fst snd].
  destruct (k a m1) as [[b m2] t2]. reflexivity.
Qed.

Lemma run_triple {A} (a : A) (m : OctomapManager) (t : list Event) :
  result (a, m, t) = a /\ after (a, m, t) = m /\ calls (a, m, t) = t.
Proof. repeat split. Qed.

Lemma this_bind {B} (k : OctomapManager -> M B) (m : OctomapManager) :
  bind this k m = k m m.
Proof.
  unfold bind, this. destruct (k m m) as [[b m2] t2]. reflexivity.
Qed.

Lemma spin_cons (msg : Message) (rest : list Message) (m : OctomapManager) :
  after (spin (msg :: rest) m) = after (spin rest (after (deliver msg m))) /\
  calls (spin (msg :: rest) m)
  = (calls (deliver msg m) ++ calls (spin rest (after (deliver msg m))))%list.
Proof.
  cbn [spin]. rewrite bind_run.
  destruct (deliver msg m) as [[[] m1] t1]. split; reflexivity.
Qed.

(** Projects the components of literal runs. *)
Ltac triples :=
  rewrite ?(fun A a m t => proj1 (@run_triple A a m t)),
    ?(fun A a m t => proj1 (proj2 (@run_triple A a m t))),
    ?(fun A a m t => proj2 (proj2 (@run_triple A a m t))).

(** ** Transform lookup *)

Lemma lookupTransform_run (m : OctomapManager) (from_frame to_frame : string)
  (timestamp : Time) :
  lookupTransform from_frame to_frame timestamp m
  = (match lookup_answer m from_frame to_frame timestamp with
     | inl tf_transform => Some (transformTFToKindr tf_transform)
     | inr _ => None
     end,
     m,
     (canTransform_call to_frame from_frame timestamp
        :: (if tf_canTransform (tf_listener_ m) to_frame from_frame timestamp
            then [] else [ROS_WARN latest_warning])
        ++ lookupTransform_call to_frame from_frame
             (lookup_time m from_frame to_frame timestamp)
        :: match lookup_answer m from_frame to_frame timestamp with
           | inl _ => []
           | inr what => [lookup_error what]
           end)%list).
Proof.
  unfold lookupTransform, lookup_answer, lookup_time, lookup_error,
    latest_warning. run.
  destruct (tf_canTransform (tf_listener_ m) to_frame from_frame timestamp);
    cbn;
    match goal with
    | |- context [tf_lookupTransform ?l ?a ?b ?t] =>
        destruct (tf_lookupTransform l a b t)
    end; reflexivity.
Qed.

Lemma lookupTransform_no_insertion (m : OctomapManager)
  (from_frame to_frame : string) (timestamp : Time) :
  filter is_insertion (calls (lookupTransform from_frame to_frame timestamp m))
  = [] /\
  filter is_calibration_call
    (calls (lookupTransform from_frame to_frame timestamp m)) = [].
Proof.
  rewrite lookupTransform_run. unfold calls, lookup_error. cbn [snd].
  destruct (tf_canTransform (tf_listener_ m) to_frame from_frame timestamp);
    destruct (lookup_answer m from_frame to_frame timestamp);
    split; reflexivity.
Qed.

(** C2: for every request, [lookupTransform] first asks the buffer whether
    the transform is available at the requested timestamp; exactly when that
    answer is negative it switches the query time to zero (latest known) and
    emits a warning, without failing; it then makes one lookup at the
    resulting time, and these two are its only queries on the buffer. *)
Theorem lookupTransform_checks_then_looks_up_once
  (m : OctomapManager) (from_frame to_frame : string) (timestamp : Time) :
  let r := lookupTransform from_frame to_frame timestamp m in
  let available :=
    tf_canTransform (tf_listener_ m) to_frame from_frame timestamp in
  let t := if available then timestamp else Time_0 in
  let answer := tf_lookupTransform (tf_listener_ m) to_frame from_frame t in
  calls r
  = (canTransform_call to_frame from_frame timestamp
       :: (if available then [] else [ROS_WARN latest_warning])
       ++ lookupTransform_call to_frame from_frame t
       :: match answer with
          | inl _ => []
          | inr what => [lookup_error what]
          end)%list /\
  filter is_tf_query (calls r)
  = [canTransform_call to_frame from_frame timestamp;
     lookupTransform_call to_frame from_frame t] /\
  (In (ROS_WARN latest_warning) (calls r) <-> available = false) /\
  result r
  = match answer with
    | inl tf_transform => Some (transformTFToKindr tf_transform)
    | inr _ => None
    end /\
  after r = m.
Proof.
  cbv zeta. rewrite lookupTransform_run.
  unfold result, after, calls, lookup_answer, lookup_time, lookup_error.
  cbn [fst snd].
  repeat split.
  - destruct (tf_canTransform (tf_listener_ m) to_frame from_frame timestamp);
      cbn;
      match goal with
      | |- context [tf_lookupTransform ?l ?a ?b ?t] =>
          destruct (tf_lookupTransform l a b t)
      end; reflexivity.
  - destruct (tf_canTransform (tf_listener_ m) to_frame from_frame timestamp);
      [|reflexivity].
    cbn. intros [H|[H|H]]; try discriminate H.
    destruct (tf_lookupTransform (tf_listener_ m) to_frame from_frame timestamp);
      cbn in H; [contradiction|].
    destruct H as [H|[]]. discriminate H.
  - intros ->. cbn. right. left. reflexivity.
Qed.

(** ** Frame dispatch *)

Lemma insertDisparityImageWithTf_not_ready (m : OctomapManager)
  (d : DisparityImage) :
  Q_initialized_ m = false ->
  insertDisparityImageWithTf d m
  = (tt, m, [ROS_WARN_THROTTLE 1 not_ready_warning]).
Proof.
  intros H. unfold insertDisparityImageWithTf. run. rewrite H. reflexivity.
Qed.

Lemma insertDisparityImageWithTf_ready (m : OctomapManager)
  (d : DisparityImage) :
  Q_initialized_ m = true ->
  let look :=
    lookupTransform (frame_id (disparity_header d)) (world_frame_ m)
      (stamp (disparity_header d)) m in
  insertDisparityImageWithTf d m
  = match result look with
    | Some T =>
        (tt,
         set_world
           (insertDisparityImage T d (Q_ m) (full_image_size_ m) (world m)) m,
         (calls look
            ++ [insertDisparityImage_call T d (Q_ m) (full_image_size_ m)])%list)
    | None => (tt, m, calls look)
    end.
Proof.
  intros H. cbv zeta. unfold insertDisparityImageWithTf.
  rewrite this_bind, H. cbn [negb].
  rewrite bind_run, lookupTransform_run.
  unfold result, after, calls, base_call, ret. cbn [fst snd].
  destruct (lookup_answer m (frame_id (disparity_header d)) (world_frame_ m)
              (stamp (disparity_header d)));
    cbn [fst snd]; rewrite ?app_nil_r; reflexivity.
Qed.

Lemma insertPointcloudWithTf_run (m : OctomapManager) (p : PointCloud2) :
  let look :=
    lookupTransform (frame_id (pointcloud_header p)) (world_frame_ m)
      (stamp (pointcloud_header p)) m in
  insertPointcloudWithTf p m
  = match result look with
    | Some T =>
        (tt, set_world (insertPointcloud T p (world m)) m,
         (calls look ++ [insertPointcloud_call T p])%list)
    | None => (tt, m, calls look)
    end.
Proof.
  cbv zeta. unfold insertPointcloudWithTf.
  rewrite this_bind, bind_run, lookupTransform_run.
  unfold result, after, calls, base_call, ret. cbn [fst snd].
  destruct (lookup_answer m (frame_id (pointcloud_header p)) (world_frame_ m)
              (stamp (pointcloud_header p)));
    cbn [fst snd]; rewrite ?app_nil_r; reflexivity.
Qed.

(** C3: a disparity frame that arrives while the readiness flag is down is
    dropped with the throttled warning and nothing else happens, so the
    mapping engine is not called; one that arrives while the flag is up has
    its transform looked up, and on success the engine's disparity insertion
    is called once with exactly the transform, the frame, the stored matrix
    and the expected image size, while on failure no insertion is called. *)
Theorem disparity_frame_dispatch (m : OctomapManager) (d : DisparityImage) :
  let r := insertDisparityImageWithTf d m in
  let look :=
    lookupTransform (frame_id (disparity_header d)) (world_frame_ m)
      (stamp (disparity_header d)) m in
  (Q_initialized_ m = false ->
   calls r = [ROS_WARN_THROTTLE 1 not_ready_warning] /\
   filter is_insertion (calls r) = [] /\
   after r = m) /\
  (Q_initialized_ m = true ->
   forall T : Transformation,
     result look = Some T ->
     calls r
     = (calls look
          ++ [insertDisparityImage_call T d (Q_ m) (full_image_size_ m)])%list /\
     filter is_insertion (calls r)
     = [insertDisparityImage_call T d (Q_ m) (full_image_size_ m)] /\
     after r
     = set_world
         (insertDisparityImage T d (Q_ m) (full_image_size_ m) (world m)) m) /\
  (Q_initialized_ m = true ->
   result look = None ->
   calls r = calls look /\
   filter is_insertion (calls r) = [] /\
   after r = m).
Proof.
  cbv zeta. split; [|split].
  - intros H. rewrite insertDisparityImageWithTf_not_ready by exact H.
    repeat split.
  - intros H T HT. rewrite insertDisparityImageWithTf_ready by exact H.
    cbv zeta. rewrite HT. triples.
    repeat split. rewrite filter_app.
    rewrite (proj1 (lookupTransform_no_insertion _ _ _ _)). reflexivity.
  - intros H HN. rewrite insertDisparityImageWithTf_ready by exact H.
    cbv zeta. rewrite HN. triples.
    repeat split. apply lookupTransform_no_insertion.
Qed.

(** C8: a point-cloud frame is forwarded to the engine's point-cloud
    insertion with exactly the transform and the frame whenever the lookup
    succeeds, and dropped only when it fails; the readiness flag, the matrix
    and the image size play no part in either outcome. *)
Theorem pointcloud_frame_dispatch (m : OctomapManager) (p : PointCloud2) :
  let r := insertPointcloudWithTf p m in
  let look :=
    lookupTransform (frame_id (pointcloud_header p)) (world_frame_ m)
      (stamp (pointcloud_header p)) m in
  (forall T : Transformation,
      result look = Some T ->
      calls r = (calls look ++ [insertPointcloud_call T p])%list /\
      filter is_insertion (calls r) = [insertPointcloud_call T p] /\
      after r = set_world (insertPointcloud T p (world m)) m) /\
  (result look = None ->
   calls r = calls look /\
   filter is_insertion (calls r) = [] /\
   after r = m) /\
  (filter is_insertion (calls r) = [] -> result look = None) /\
  (forall (ready : bool) (Q : Matrix4d) (size : Vector2),
      let m' := set_Q_initialized_ ready (set_Q_ Q (set_full_image_size_ size m)) in
      calls (insertPointcloudWithTf p m') = calls r /\
      world (after (insertPointcloudWithTf p m')) = world (after r)).
Proof.
  cbv zeta. split; [|split; [|split]].
  - intros T HT. rewrite insertPointcloudWithTf_run.
    cbv zeta. rewrite HT. triples.
    repeat split. rewrite filter_app.
    rewrite (proj1 (lookupTransform_no_insertion _ _ _ _)). reflexivity.
  - intros HN. rewrite insertPointcloudWithTf_run.
    cbv zeta. rewrite HN. triples.
    repeat split. apply lookupTransform_no_insertion.
  - rewrite insertPointcloudWithTf_run. cbv zeta.
    destruct (result (lookupTransform (frame_id (pointcloud_header p))
                        (world_frame_ m) (stamp (pointcloud_header p)) m))
      as [T|]; [|reflexivity].
    triples. rewrite filter_app.
    rewrite (proj1 (lookupTransform_no_insertion _ _ _ _)).
    cbn. discriminate.
  - intros ready Q size.
    rewrite !insertPointcloudWithTf_run. cbv zeta.
    rewrite !lookupTransform_run.
    unfold result, lookup_answer, lookup_time. cbn [fst snd].
    cbn [set_Q_initialized_ set_Q_ set_full_image_size_ tf_listener_
           world_frame_ world].
    match goal with
    | |- context [match ?a with inl _ => _ | inr _ => _ end] => destruct a
    end; split; reflexivity.
Qed.

(** ** The readiness latch *)

Lemma deliver_when_ready (msg : Message) (m : OctomapManager) :
  Q_initialized_ m = true ->
  same_calibration m (after (deliver msg m)) /\
  filter is_calibration_call (calls (deliver msg m)) = [].
Proof.
  intros H. unfold same_calibration.
  destruct msg as [i | i | d | p]; cbn [deliver].
  - rewrite leftCameraInfoCallback_skip
      by (rewrite H; cbn; apply andb_false_r).
    repeat split.
  - rewrite rightCameraInfoCallback_skip
      by (rewrite H; cbn; apply andb_false_r).
    repeat split.
  - rewrite insertDisparityImageWithTf_ready by exact H. cbv zeta.
    destruct (result (lookupTransform (frame_id (disparity_header d))
                        (world_frame_ m) (stamp (disparity_header d)) m));
      triples; repeat split;
      rewrite ?filter_app, (proj2 (lookupTransform_no_insertion _ _ _ _));
      reflexivity.
  - rewrite insertPointcloudWithTf_run. cbv zeta.
    destruct (result (lookupTransform (frame_id (pointcloud_header p))
                        (world_frame_ m) (stamp (pointcloud_header p)) m));
      triples; repeat split;
      rewrite ?filter_app, (proj2 (lookupTransform_no_insertion _ _ _ _));
      reflexivity.
Qed.

Lemma spin_when_ready (msgs : list Message) (m : OctomapManager) :
  Q_initialized_ m = true ->
  same_calibration m (after (spin msgs m)) /\
  filter is_calibration_call (calls (spin msgs m)) = [].
Proof.
  revert m. induction msgs as [|msg rest IH]; intros m H.
  - repeat split.
  - destruct (spin_cons msg rest m) as [-> ->].
    destruct (deliver_when_ready msg m H) as [(HQ & Hi & Hs) Hc].
    destruct (IH (after (deliver msg m))) as [(HQ' & Hi' & Hs') Hc'].
    + rewrite Hi. exact H.
    + unfold same_calibration. rewrite filter_app, Hc, Hc'.
      repeat split; congruence.
Qed.

(** C1: once the readiness flag is up, whichever path raised it, every
    later left or right intrinsic descriptor is stored as the last seen one
    and nothing more: no matrix computation is called, and the stored
    matrix, the flag and the expected image size are what they were; the
    same holds after any sequence of later messages. *)
Theorem ready_calibration_survives_camera_info (m : OctomapManager) :
  Q_initialized_ m = true ->
  (forall info : option CameraInfo,
      keeps_calibration m (leftCameraInfoCallback info m) /\
      left_info_ (after (leftCameraInfoCallback info m)) = info /\
      right_info_ (after (leftCameraInfoCallback info m)) = right_info_ m) /\
  (forall info : option CameraInfo,
      keeps_calibration m (rightCameraInfoCallback info m) /\
      right_info_ (after (rightCameraInfoCallback info m)) = info /\
      left_info_ (after (rightCameraInfoCallback info m)) = left_info_ m) /\
  (forall msgs : list Message,
      Q_ (after (spin msgs m)) = Q_ m /\
      Q_initialized_ (after (spin msgs m)) = true /\
      full_image_size_ (after (spin msgs m)) = full_image_size_ m /\
      filter is_calibration_call (calls (spin msgs m)) = []).
Proof.
  intros H. split; [|split].
  - intros info. rewrite leftCameraInfoCallback_skip
      by (rewrite H; cbn; apply andb_false_r).
    unfold keeps_calibration. repeat split.
  - intros info. rewrite rightCameraInfoCallback_skip
      by (rewrite H; cbn; apply andb_false_r).
    unfold keeps_calibration. repeat split.
  - intros msgs.
    destruct (spin_when_ready msgs m H) as [(HQ & Hi & Hs) Hc].
    rewrite Hi. auto.
Qed.

(** ** Lookup failure *)

(** C7, as the code has it: when the lookup raises, also at the fallback
    time, [lookupTransform] reports the cause text in an error record and
    returns the bare failure value; the object is untouched; a disparity or
    point-cloud frame with that header reaches no insertion and leaves the
    object as it was, so the messages after it are handled exactly as if it
    had not come, and the callback returns normally. *)
Theorem lookup_failure_is_reported_and_frame_dropped
  (m : OctomapManager) (from_frame to_frame : string) (timestamp : Time)
  (what : string) :
  lookup_answer m from_frame to_frame timestamp = inr what ->
  let r := lookupTransform from_frame to_frame timestamp m in
  (result r = None /\
   after r = m /\
   exists earlier, calls r = (earlier ++ [lookup_error what])%list) /\
  (forall (msg : Message) (rest : list Message),
      to_frame = world_frame_ m ->
      (exists data,
          msg = disparity_msg
                  (mkDisparityImage (mkHeader timestamp from_frame) data)) \/
      (exists data,
          msg = pointcloud_msg
                  (mkPointCloud2 (mkHeader timestamp from_frame) data)) ->
      filter is_insertion (calls (deliver msg m)) = [] /\
      after (deliver msg m) = m /\
      after (spin (msg :: rest) m) = after (spin rest m) /\
      calls (spin (msg :: rest) m)
      = (calls (deliver msg m) ++ calls (spin rest m))%list).
Proof.
  intros Hans. cbv zeta. split.
  - rewrite lookupTransform_run, Hans. triples. repeat split.
    eexists (canTransform_call to_frame from_frame timestamp :: _ ++ [_])%list.
    cbn [app]. rewrite <- app_assoc. reflexivity.
  - intros msg rest -> Hmsg.
    assert (Hdrop : filter is_insertion (calls (deliver msg m)) = [] /\
                    after (deliver msg m) = m).
    { destruct Hmsg as [[data ->] | [data ->]]; cbn [deliver].
      - destruct (Q_initialized_ m) eqn:Hq.
        + rewrite insertDisparityImageWithTf_ready by exact Hq. cbv zeta.
          cbn [disparity_header frame_id stamp].
          rewrite lookupTransform_run, Hans. triples.
          split; [|reflexivity].
          destruct (tf_canTransform (tf_listener_ m) (world_frame_ m)
                      from_frame timestamp); reflexivity.
        + rewrite insertDisparityImageWithTf_not_ready by exact Hq.
          split; reflexivity.
      - rewrite insertPointcloudWithTf_run. cbv zeta.
        cbn [pointcloud_header frame_id stamp].
        rewrite lookupTransform_run, Hans. triples.
        split; [|reflexivity].
        destruct (tf_canTransform (tf_listener_ m) (world_frame_ m)
                    from_frame timestamp); reflexivity. }
    destruct Hdrop as [Hins Hsame].
    destruct (spin_cons msg rest m) as [-> ->].
    rewrite Hsame. auto.
Qed.

(** ** Services *)

Lemma advertiseServices_split (m : OctomapManager) :
  advertiseServices m
  = (advertise_through_load_map ;;
     h <- advertiseService "set_box_occupancy" setBoxOccupancyCallback_fn ;;
     assign (set_load_octree_service_ h)) m.
Proof. reflexivity. Qed.

(** C9: for every request, [setBoxOccupancyCallback] performs [setOccupied]
    or [setFree] on the converted box and then reaches the end of its body
    with no [return] executed: it yields no value, whatever the request and
    whatever the operation did to the map. *)
Theorem setBoxOccupancyCallback_returns_nothing
  (m : OctomapManager) (request : SetBoxOccupancyRequest) :
  let r := setBoxOccupancyCallback request m in
  let center := vectorMsgToKindr (box_center request) in
  let size := vectorMsgToKindr (box_size request) in
  result r = NoReturn /\
  (forall b : bool, result r <> Value b) /\
  calls r
  = [if set_occupied request
     then setOccupied_call center size
     else setFree_call center size] /\
  after r
  = set_world
      (if set_occupied request
       then setOccupied center size (world m)
       else setFree center size (world m)) m.
Proof.
  cbv zeta. unfold setBoxOccupancyCallback.
  destruct (set_occupied request); run; repeat split; discriminate.
Qed.

End Properties.

(** * Runs on the concrete platform *)

Module Runs.
Import Bench.

Example startup_with_Q :
  let m := after (setParametersFromROS (fresh (only_Q sixteen) dense)) in
  Q_initialized_ m = true /\ row_major (Q_ m) = sixteen /\
  coeff (Q_ m) 0 3 = (-320)%Z /\ coeff (Q_ m) 3 2 = 8%Z.
Proof. repeat split. Qed.

Example startup_with_short_Q :
  let r := setParametersFromROS (fresh (only_Q [1; 2; 3; 4; 5]%Z) dense) in
  Q_initialized_ (after r) = false /\ Q_ (after r) = Identity /\
  calls r
  = [ROS_ERROR "Invalid Q matrix size, expected size: 16, actual size: 5";
     setOctomapParameters_call default_parameters].
Proof. repeat split. Qed.

Lemma explicit_calibration_sets_matrix_and_ready_witness :
  (result (setQFromParams sixteen (fresh no_parameters dense)) = true /\
   calls (setQFromParams sixteen (fresh no_parameters dense)) = [] /\
   row_major (Q_ (after (setQFromParams sixteen (fresh no_parameters dense))))
   = sixteen) /\
  (Q_initialized_ (after (setParametersFromROS (fresh (only_Q sixteen) dense)))
   = true /\
   row_major (Q_ (after (setParametersFromROS (fresh (only_Q sixteen) dense))))
   = sixteen).
Proof.
  apply (explicit_calibration_sets_matrix_and_ready
           (fresh (only_Q sixteen) dense) (fresh no_parameters dense)
           sixteen); reflexivity.
Defined.

Lemma explicit_calibration_rejects_wrong_size_witness :
  let m := after (setParametersFromROS (fresh (only_Q sixteen) dense)) in
  let v := [1; 2; 3; 4; 5]%Z in
  let start := fresh (only_Q v) dense in
  (result (setQFromParams v m) = false /\
   after (setQFromParams v m) = m) /\
  (Q_ (after (setParametersFromROS start)) = Identity /\
   Q_initialized_ (after (setParametersFromROS start)) = false).
Proof.
  cbv zeta.
  destruct (explicit_calibration_rejects_wrong_size
              (after (setParametersFromROS (fresh (only_Q sixteen) dense)))
              [1; 2; 3; 4; 5]%Z) as ((Hr & _ & Ha & _) & Hs).
  - cbn. lia.
  - split; [exact (conj Hr Ha)|].
    exact (Hs (only_Q [1; 2; 3; 4; 5]%Z) dense [] eq_refl).
Defined.

(** The scenario of a malformed configuration followed by both
    descriptors: the error is reported at startup, the second descriptor
    triggers the derivation, and the image size is the left camera's. *)
Example malformed_Q_then_both_cameras :
  let started :=
    setParametersFromROS (fresh (only_Q [1; 2; 3; 4; 5]%Z) dense) in
  let one := leftCameraInfoCallback (Some left_cam) (after started) in
  let two := rightCameraInfoCallback (Some right_cam) (after one) in
  Q_initialized_ (after started) = false /\
  Q_initialized_ (after one) = false /\ calls one = [] /\
  Q_initialized_ (after two) = true /\
  calls two = [getQForROSCameras_call left_cam right_cam] /\
  Q_ (after two) = getQForROSCameras left_cam right_cam /\
  full_image_size_ (after two) = (640%Z, 480%Z).
Proof. repeat split. Qed.

(** Right first, then left: the size still comes from the left camera. *)
Example right_then_left :
  let one :=
    rightCameraInfoCallback (Some right_cam) (fresh no_parameters dense) in
  let two := leftCameraInfoCallback (Some left_cam) (after one) in
  calls one = [] /\
  calls two = [getQForROSCameras_call left_cam right_cam] /\
  full_image_size_ (after two) = (640%Z, 480%Z).
Proof. repeat split. Qed.

(** Derived path, then a different pair of descriptors: nothing moves. *)
Example derived_then_more_camera_info :
  let ready :=
    after (spin [cam0_camera_info (Some left_cam);
                 cam1_camera_info (Some right_cam)]
             (fresh no_parameters dense)) in
  let later :=
    spin [cam1_camera_info (Some left_cam); cam0_camera_info (Some right_cam)]
      ready in
  Q_initialized_ ready = true /\
  Q_ (after later) = Q_ ready /\
  full_image_size_ (after later) = (640%Z, 480%Z) /\
  left_info_ (after later) = Some right_cam /\
  calls later = [].
Proof. repeat split. Qed.

Lemma ready_calibration_survives_camera_info_witness :
  let m := after (setParametersFromROS (fresh (only_Q sixteen) dense)) in
  let later :=
    spin [cam0_camera_info (Some left_cam); cam1_camera_info (Some right_cam)]
      m in
  Q_initialized_ m = true /\
  keeps_calibration m (leftCameraInfoCallback (Some left_cam) m) /\
  left_info_ (after (leftCameraInfoCallback (Some left_cam) m))
  = Some left_cam /\
  Q_ (after later) = Q_ m /\
  Q_initialized_ (after later) = true /\
  full_image_size_ (after later) = full_image_size_ m.
Proof.
  cbv zeta. split; [reflexivity|].
  destruct (ready_calibration_survives_camera_info
              (after (setParametersFromROS (fresh (only_Q sixteen) dense)))
              eq_refl) as (Hl & _ & Hs).
  destruct (Hl (Some left_cam)) as (Hk & Hi & _).
  destruct (Hs [cam0_camera_info (Some left_cam);
                cam1_camera_info (Some right_cam)]) as (HQ & Hr & Hz & _).
  exact (conj Hk (conj Hi (conj HQ (conj Hr Hz)))).
Defined.

Lemma camera_info_arrival_derives_when_pair_complete_witness :
  let m := after (leftCameraInfoCallback (Some left_cam)
                    (fresh no_parameters dense)) in
  derives (rightCameraInfoCallback (Some right_cam) m) left_cam right_cam /\
  keeps_calibration m (leftCameraInfoCallback (Some right_cam) m).
Proof.
  cbv zeta.
  destruct (camera_info_arrival_derives_when_pair_complete
              (after (leftCameraInfoCallback (Some left_cam)
                        (fresh no_parameters dense)))
              (Some right_cam)) as (_ & _ & _ & Hd & Hk & _).
  split.
  - apply Hd; reflexivity.
  - apply Hk. right. left. reflexivity.
Defined.

(** The buffer has nothing at the stamp but has a latest transform. *)
Example lookup_falls_back_to_latest :
  let r := lookupTransform "cam0" "world" (mkTime 7 0)
             (fresh no_parameters latest_only) in
  result r = Some 42%Z /\
  calls r
  = [canTransform_call "world" "cam0" (mkTime 7 0);
     ROS_WARN latest_warning;
     lookupTransform_call "world" "cam0" Time_0].
Proof. repeat split. Qed.

Example lookup_at_stamp :
  let r := lookupTransform "cam0" "world" (mkTime 7 0)
             (fresh no_parameters dense) in
  result r = Some 8%Z /\
  calls r
  = [canTransform_call "world" "cam0" (mkTime 7 0);
     lookupTransform_call "world" "cam0" (mkTime 7 0)].
Proof. repeat split. Qed.

Example lookup_never_connected :
  let r := lookupTransform "cam0" "world" (mkTime 7 0)
             (fresh no_parameters (Disconnected "no such frame")) in
  result r = None /\
  calls r
  = [canTransform_call "world" "cam0" (mkTime 7 0);
     ROS_WARN latest_warning;
     lookupTransform_call "world" "cam0" Time_0;
     ROS_ERROR "Error getting TF transform from sensor data: no such frame"].
Proof. repeat split. Qed.

Lemma disparity_frame_dispatch_witness :
  let waiting := fresh no_parameters latest_only in
  let ready :=
    after (setParametersFromROS (fresh (only_Q sixteen) latest_only)) in
  let cut := fresh (only_Q sixteen) (Disconnected "no such frame") in
  calls (insertDisparityImageWithTf (frame_at 7) waiting)
  = [ROS_WARN_THROTTLE 1 not_ready_warning] /\
  filter is_insertion (calls (insertDisparityImageWithTf (frame_at 7) ready))
  = [insertDisparityImage_call 42%Z (frame_at 7) (Q_ ready) (752%Z, 480%Z)] /\
  filter is_insertion
    (calls (insertDisparityImageWithTf (frame_at 7)
              (after (setParametersFromROS cut)))) = [].
Proof.
  cbv zeta. split; [|split].
  - destruct (disparity_frame_dispatch (fresh no_parameters latest_only)
                (frame_at 7)) as (H & _ & _).
    apply H. reflexivity.
  - destruct (disparity_frame_dispatch
                (after (setParametersFromROS
                          (fresh (only_Q sixteen) latest_only)))
                (frame_at 7)) as (_ & H & _).
    apply (H eq_refl 42%Z eq_refl).
  - destruct (disparity_frame_dispatch
                (after (setParametersFromROS
                          (fresh (only_Q sixteen)
                             (Disconnected "no such frame"))))
                (frame_at 7)) as (_ & _ & H).
    apply (H eq_refl eq_refl).
Defined.

Lemma pointcloud_frame_dispatch_witness :
  let waiting := fresh no_parameters latest_only in
  let cut := fresh no_parameters (Disconnected "no such frame") in
  Q_initialized_ waiting = false /\
  calls (insertPointcloudWithTf (cloud_at 7) waiting)
  = [canTransform_call "world" "cam0" (mkTime 7 0);
     ROS_WARN latest_warning;
     lookupTransform_call "world" "cam0" Time_0;
     insertPointcloud_call 42%Z (cloud_at 7)] /\
  world (after (insertPointcloudWithTf (cloud_at 7) waiting))
  = ["pointcloud"] /\
  after (insertPointcloudWithTf (cloud_at 7) cut) = cut.
Proof.
  cbv zeta. split; [reflexivity|].
  destruct (pointcloud_frame_dispatch (fresh no_parameters latest_only)
              (cloud_at 7)) as (H & _ & _ & _).
  destruct (H 42%Z eq_refl) as (Hc & _ & Ha).
  destruct (pointcloud_frame_dispatch
              (fresh no_parameters (Disconnected "no such frame"))
              (cloud_at 7)) as (_ & H' & _ & _).
  destruct (H' eq_refl) as (_ & _ & Ha').
  split; [rewrite Hc; reflexivity|].
  split; [rewrite Ha; reflexivity|exact Ha'].
Defined.

(** The value [lookupTransform] returns on failure is the same for two
    different causes, so the cause text is not in it: no function of the
    returned value gives back both texts. *)
Lemma lookup_failure_value_carries_no_cause_text :
  let r1 := lookupTransform "cam0" "world" (mkTime 7 0)
              (fresh no_parameters (Disconnected "no such frame")) in
  let r2 := lookupTransform "cam0" "world" (mkTime 7 0)
              (fresh no_parameters (Disconnected "frames not connected")) in
  result r1 = None /\
  result r2 = None /\
  ~ (exists cause_of : option Transformation -> string,
        cause_of (result r1) = "no such frame" /\
        cause_of (result r2) = "frames not connected").
Proof.
  cbv zeta. split; [reflexivity|]. split; [reflexivity|].
  intros (cause_of & H1 & H2).
  change (cause_of None = "no such frame") in H1.
  change (cause_of None = "frames not connected") in H2.
  rewrite H1 in H2. discriminate H2.
Qed.

Lemma lookup_failure_is_reported_and_frame_dropped_witness :
  let m := after (setParametersFromROS
                    (fresh (only_Q sixteen) (Disconnected "no such frame"))) in
  let rest := [pointcloud_msg (cloud_at 8)] in
  result (lookupTransform "cam0" "world" (mkTime 7 0) m) = None /\
  after (deliver (disparity_msg (frame_at 7)) m) = m /\
  filter is_insertion (calls (deliver (disparity_msg (frame_at 7)) m)) = [] /\
  after (spin (disparity_msg (frame_at 7) :: rest) m) = after (spin rest m).
Proof.
  cbv zeta.
  destruct (lookup_failure_is_reported_and_frame_dropped
              (after (setParametersFromROS
                        (fresh (only_Q sixteen)
                           (Disconnected "no such frame"))))
              "cam0" "world" (mkTime 7 0) "no such frame" eq_refl)
    as ((Hr & _ & _) & Hd).
  destruct (Hd (disparity_msg (frame_at 7)) [pointcloud_msg (cloud_at 8)]
              eq_refl
              (or_introl (ex_intro _ [1; 2; 3]%Z eq_refl)))
    as (Hi & Ha & Hs & _).
  exact (conj Hr (conj Ha (conj Hi Hs))).
Defined.

Example box_occupancy_runs :
  let m := fresh no_parameters dense in
  let set := setBoxOccupancyCallback
               (mkSetBoxOccupancyRequest (0, 0, 1)%Z (2, 2, 2)%Z true) m in
  let clear := setBoxOccupancyCallback
                 (mkSetBoxOccupancyRequest (0, 0, 1)%Z (2, 2, 2)%Z false) m in
  result set = NoReturn /\ world (after set) = ["occupied"] /\
  result clear = NoReturn /\ world (after clear) = ["free"] /\
  result (resetMapCallback m) = Value true /\
  result (loadOctomapCallback "map.bt" m) = Value true.
Proof. repeat split. Qed.

Example services_after_startup :
  service_members (after (advertiseServices (fresh no_parameters dense)))
  = [("reset_map_service_", Some ("reset_map", resetMapCallback_fn));
     ("publish_all_service_", Some ("publish_all", publishAllCallback_fn));
     ("get_map_service_", Some ("get_map", getOctomapCallback_fn));
     ("save_octree_service_", Some ("save_map", saveOctomapCallback_fn));
     ("load_octree_service_",
      Some ("set_box_occupancy", setBoxOccupancyCallback_fn))].
Proof. reflexivity. Qed.

End Runs.

(** * Further properties of the manager *)

(** Projects the components of literal runs. *)
Ltac components :=
  rewrite ?(fun A a m t => proj1 (@run_triple _ A a m t)),
    ?(fun A a m t => proj1 (proj2 (@run_triple _ A a m t))),
    ?(fun A a m t => proj2 (proj2 (@run_triple _ A a m t))).

Section Coverage.

Context `{W : WorldBase}.

Local Open Scope mgr_scope.

(** ** Configuration *)

Lemma set_world_same_members (m : OctomapManager) (w : OctomapWorld) :
  only_world_changed m (set_world w m).
Proof. destruct m. reflexivity. Qed.

Lemma only_world_changed_refl (m : OctomapManager) : only_world_changed m m.
Proof. destruct m. reflexivity. Qed.

(** X1: on a parameter server where nothing is set, [setParametersFromROS]
    keeps every member of the manager (frame name, matrix, flag, image size,
    frequency) and hands the base class its default parameters, in a single
    call and without any error report. *)
Theorem setParametersFromROS_defaults (m : OctomapManager) :
  nothing_set (nh_private_ m) ->
  setParametersFromROS m
  = (tt, set_world (setOctomapParameters default_parameters (world m)) m,
     [setOctomapParameters_call default_parameters]).
Proof.
  intros (Hs & Hd & Hb & Hz & Hv).
  unfold setParametersFromROS, param. run.
  rewrite Hv, Hs, !Hd, Hb, !Hz. run.
  destruct default_parameters. destruct m as [? ? ? ? [x y] ? ? ? ? ? ? ? ? ? ?].
  reflexivity.
Qed.

Lemma setParametersFromROS_readiness (m : OctomapManager) :
  let r := setParametersFromROS m in
  match param_double_vector (nh_private_ m) "Q" with
  | Some Q_vec =>
      Q_initialized_ (after r) = Nat.eqb (List.length Q_vec) 16 /\
      Q_ (after r)
      = (if Nat.eqb (List.length Q_vec) 16
         then Matrix4d_init (RowMajorMap_coeff Q_vec)
         else Q_ m)
  | None =>
      Q_initialized_ (after r) = Q_initialized_ m /\
      Q_ (after r) = Q_ m /\
      calls r
      = [setOctomapParameters_call
           (mkOctomapParameters
              (param (param_double (nh_private_ m)) "resolution"
                 (resolution default_parameters))
              (param (param_double (nh_private_ m)) "probability_hit"
                 (probability_hit default_parameters))
              (param (param_double (nh_private_ m)) "probability_miss"
                 (probability_miss default_parameters))
              (param (param_double (nh_private_ m)) "threshold_min"
                 (threshold_min default_parameters))
              (param (param_double (nh_private_ m)) "threshold_max"
                 (threshold_max default_parameters))
              (param (param_double (nh_private_ m)) "threshold_occupancy"
                 (threshold_occupancy default_parameters))
              (param (param_bool (nh_private_ m)) "filter_speckles"
                 (filter_speckles default_parameters))
              (param (param_double (nh_private_ m)) "sensor_max_range"
                 (sensor_max_range default_parameters))
              (param (param_double (nh_private_ m)) "visualize_min_z"
                 (visualize_min_z default_parameters))
              (param (param_double (nh_private_ m)) "visualize_max_z"
                 (visualize_max_z default_parameters)))]
  end.
Proof.
  cbv zeta.
  destruct (param_double_vector (nh_private_ m) "Q") as [Q_vec|] eqn:Hq.
  - destruct (Nat.eqb_spec (List.length Q_vec) 16) as [E|E].
    + exact (setParametersFromROS_Q_16 m Q_vec E Hq).
    + destruct (setParametersFromROS_Q_not_16 m Q_vec E Hq) as (Hi & HQ & _).
      split; assumption.
  - unfold setParametersFromROS. run. rewrite Hq. run.
    repeat split.
Qed.

(** X2: when the [Q] parameter is present, [setParametersFromROS] leaves
    the readiness flag equal to the verdict on its length, whatever the flag
    was before: sixteen coefficients raise it and install the matrix, any
    other length lowers it and keeps the matrix.  When [Q] is absent, flag
    and matrix are kept and no error is reported. *)
Theorem setParametersFromROS_Q_decides_readiness (m : OctomapManager) :
  let r := setParametersFromROS m in
  match param_double_vector (nh_private_ m) "Q" with
  | Some Q_vec =>
      Q_initialized_ (after r) = Nat.eqb (List.length Q_vec) 16 /\
      Q_ (after r)
      = (if Nat.eqb (List.length Q_vec) 16
         then Matrix4d_init (RowMajorMap_coeff Q_vec)
         else Q_ m)
  | None =>
      Q_initialized_ (after r) = Q_initialized_ m /\
      Q_ (after r) = Q_ m /\
      calls r
      = [setOctomapParameters_call
           (mkOctomapParameters
              (param (param_double (nh_private_ m)) "resolution"
                 (resolution default_parameters))
              (param (param_double (nh_private_ m)) "probability_hit"
                 (probability_hit default_parameters))
              (param (param_double (nh_private_ m)) "probability_miss"
                 (probability_miss default_parameters))
              (param (param_double (nh_private_ m)) "threshold_min"
                 (threshold_min default_parameters))
              (param (param_double (nh_private_ m)) "threshold_max"
                 (threshold_max default_parameters))
              (param (param_double (nh_private_ m)) "threshold_occupancy"
                 (threshold_occupancy default_parameters))
              (param (param_bool (nh_private_ m)) "filter_speckles"
                 (filter_speckles default_parameters))
              (param (param_double (nh_private_ m)) "sensor_max_range"
                 (sensor_max_range default_parameters))
              (param (param_double (nh_private_ m)) "visualize_min_z"
                 (visualize_min_z default_parameters))
              (param (param_double (nh_private_ m)) "visualize_max_z"
                 (visualize_max_z default_parameters)))]
  end.
Proof. exact (setParametersFromROS_readiness m). Qed.

Lemma setParametersFromROS_members (m : OctomapManager) :
  let m' := after (setParametersFromROS m) in
  world_frame_ m'
  = param (param_string (nh_private_ m)) "tf_frame" (world_frame_ m) /\
  full_image_size_ m'
  = (param (param_scalar (nh_private_ m)) "full_image_width"
       (fst (full_image_size_ m)),
     param (param_scalar (nh_private_ m)) "full_image_height"
       (snd (full_image_size_ m))) /\
  map_publish_frequency_ m'
  = param (param_double (nh_private_ m)) "map_publish_frequency"
      (map_publish_frequency_ m) /\
  tf_listener_ m' = tf_listener_ m /\
  nh_private_ m' = nh_private_ m /\
  left_info_ m' = left_info_ m /\
  right_info_ m' = right_info_ m.
Proof.
  cbv zeta. unfold setParametersFromROS. run.
  destruct (param_double_vector (nh_private_ m) "Q") as [Q_vec|]; run.
  - unfold setQFromParams.
    destruct (Nat.eqb (List.length Q_vec) 16); run; repeat split.
  - repeat split.
Qed.

Lemma lookupTransform_targets (m : OctomapManager)
  (from_frame to_frame : string) (timestamp : Time) :
  tf_targets (calls (lookupTransform from_frame to_frame timestamp m))
  = [to_frame; to_frame].
Proof.
  rewrite lookupTransform_run. unfold calls, lookup_error. cbn [snd].
  destruct (tf_canTransform (tf_listener_ m) to_frame from_frame timestamp);
    destruct (lookup_answer m from_frame to_frame timestamp); reflexivity.
Qed.

Lemma tf_targets_app (t1 t2 : list Event) :
  tf_targets (t1 ++ t2) = (tf_targets t1 ++ tf_targets t2)%list.
Proof.
  induction t1 as [|e t1 IH]; [reflexivity|].
  cbn [app tf_targets]. rewrite IH. destruct (tf_target e); reflexivity.
Qed.

(** ** What each callback leaves alone *)

Lemma insertDisparityImageWithTf_members (m : OctomapManager)
  (d : DisparityImage) :
  only_world_changed m (after (insertDisparityImageWithTf d m)).
Proof.
  destruct (Q_initialized_ m) eqn:Hq.
  - rewrite insertDisparityImageWithTf_ready by exact Hq. cbv zeta.
    destruct (result (lookupTransform _ _ _ _)); components.
    + apply set_world_same_members.
    + apply only_world_changed_refl.
  - rewrite insertDisparityImageWithTf_not_ready by exact Hq. components.
    apply only_world_changed_refl.
Qed.

Lemma insertPointcloudWithTf_members (m : OctomapManager) (p : PointCloud2) :
  only_world_changed m (after (insertPointcloudWithTf p m)).
Proof.
  rewrite insertPointcloudWithTf_run. cbv zeta.
  destruct (result (lookupTransform _ _ _ _)); components.
  - apply set_world_same_members.
  - apply only_world_changed_refl.
Qed.

(** X4: dispatching a disparity frame or a point cloud changes no member
    of the manager other than the map of the base class: stored
    descriptors, matrix, flag, image size, frame name and service handles
    are exactly as before, whether the frame was inserted or dropped. *)
Theorem dispatch_changes_only_the_map
  (m : OctomapManager) (d : DisparityImage) (p : PointCloud2) :
  only_world_changed m (after (insertDisparityImageWithTf d m)) /\
  only_world_changed m (after (insertPointcloudWithTf p m)) /\
  (filter is_insertion (calls (insertDisparityImageWithTf d m)) = [] ->
   after (insertDisparityImageWithTf d m) = m) /\
  (filter is_insertion (calls (insertPointcloudWithTf p m)) = [] ->
   after (insertPointcloudWithTf p m) = m).
Proof.
  split; [apply insertDisparityImageWithTf_members|].
  split; [apply insertPointcloudWithTf_members|].
  split.
  - destruct (Q_initialized_ m) eqn:Hq.
    + rewrite insertDisparityImageWithTf_ready by exact Hq. cbv zeta.
      destruct (result (lookupTransform _ _ _ _)); components;
        [|reflexivity].
      rewrite filter_app, (proj1 (lookupTransform_no_insertion _ _ _ _)).
      cbn. discriminate.
    + rewrite insertDisparityImageWithTf_not_ready by exact Hq. reflexivity.
  - rewrite insertPointcloudWithTf_run. cbv zeta.
    destruct (result (lookupTransform _ _ _ _)); components; [|reflexivity].
    rewrite filter_app, (proj1 (lookupTransform_no_insertion _ _ _ _)).
    cbn. discriminate.
Qed.

Lemma cameraInfoCallback_cases (m : OctomapManager)
  (info : option CameraInfo) :
  (leftCameraInfoCallback info m = (tt, set_left_info_ info m, []) \/
   exists l r,
     info = Some l /\ right_info_ m = Some r /\ Q_initialized_ m = false /\
     leftCameraInfoCallback info m = calculateQ (set_left_info_ info m)) /\
  (rightCameraInfoCallback info m = (tt, set_right_info_ info m, []) \/
   exists l r,
     left_info_ m = Some l /\ info = Some r /\ Q_initialized_ m = false /\
     rightCameraInfoCallback info m = calculateQ (set_right_info_ info m)).
Proof.
  split.
  - destruct (non_null info && non_null (right_info_ m)
              && negb (Q_initialized_ m)) eqn:E.
    + right. pose proof (leftCameraInfoCallback_compute m info E) as Hc.
      apply andb_prop in E. destruct E as [E E3].
      apply andb_prop in E. destruct E as [E1 E2].
      destruct info as [l|]; [|discriminate E1].
      destruct (right_info_ m) as [r|]; [|discriminate E2].
      destruct (Q_initialized_ m); [discriminate E3|].
      exists l, r. auto.
    + left. apply leftCameraInfoCallback_skip, E.
  - destruct (non_null (left_info_ m) && non_null info
              && negb (Q_initialized_ m)) eqn:E.
    + right. pose proof (rightCameraInfoCallback_compute m info E) as Hc.
      apply andb_prop in E. destruct E as [E E3].
      apply andb_prop in E. destruct E as [E1 E2].
      destruct info as [r|]; [|discriminate E2].
      destruct (left_info_ m) as [l|]; [|discriminate E1].
      destruct (Q_initialized_ m); [discriminate E3|].
      exists l, r. auto.
    + left. apply rightCameraInfoCallback_skip, E.
Qed.

Lemma calculateQ_members (m : OctomapManager) :
  let r := calculateQ m in
  world (after r) = world m /\
  world_frame_ (after r) = world_frame_ m /\
  tf_listener_ (after r) = tf_listener_ m /\
  nh_private_ (after r) = nh_private_ m /\
  service_members (after r) = service_members m /\
  filter is_tf_query (calls r) = [] /\
  filter is_insertion (calls r) = [].
Proof.
  cbv zeta. unfold calculateQ. run.
  destruct (left_info_ m), (right_info_ m); repeat split.
Qed.

Lemma camera_info_quiet
  (m : OctomapManager) (info : option CameraInfo) :
  let on_left := leftCameraInfoCallback info m in
  let on_right := rightCameraInfoCallback info m in
  (world (after on_left) = world m /\
   world_frame_ (after on_left) = world_frame_ m /\
   tf_listener_ (after on_left) = tf_listener_ m /\
   nh_private_ (after on_left) = nh_private_ m /\
   service_members (after on_left) = service_members m /\
   filter is_tf_query (calls on_left) = [] /\
   filter is_insertion (calls on_left) = []) /\
  (world (after on_right) = world m /\
   world_frame_ (after on_right) = world_frame_ m /\
   tf_listener_ (after on_right) = tf_listener_ m /\
   nh_private_ (after on_right) = nh_private_ m /\
   service_members (after on_right) = service_members m /\
   filter is_tf_query (calls on_right) = [] /\
   filter is_insertion (calls on_right) = []).
Proof.
  cbv zeta. destruct (cameraInfoCallback_cases m info) as [Hl Hr]. split.
  - destruct Hl as [-> | (l & r & _ & _ & _ & ->)].
    + repeat split.
    + apply (calculateQ_members (set_left_info_ info m)).
  - destruct Hr as [-> | (l & r & _ & _ & _ & ->)].
    + repeat split.
    + apply (calculateQ_members (set_right_info_ info m)).
Qed.

(** X5: a camera-info callback, on either side and whether or not it
    triggers the derivation, makes no tf query and no insertion, and leaves
    the map, the frame name, the tf listener, the node handle and the
    service handles as they were. *)
Theorem camera_info_leaves_map_and_tf_alone
  (m : OctomapManager) (info : option CameraInfo) :
  let on_left := leftCameraInfoCallback info m in
  let on_right := rightCameraInfoCallback info m in
  (world (after on_left) = world m /\
   world_frame_ (after on_left) = world_frame_ m /\
   tf_listener_ (after on_left) = tf_listener_ m /\
   nh_private_ (after on_left) = nh_private_ m /\
   service_members (after on_left) = service_members m /\
   filter is_tf_query (calls on_left) = [] /\
   filter is_insertion (calls on_left) = []) /\
  (world (after on_right) = world m /\
   world_frame_ (after on_right) = world_frame_ m /\
   tf_listener_ (after on_right) = tf_listener_ m /\
   nh_private_ (after on_right) = nh_private_ m /\
   service_members (after on_right) = service_members m /\
   filter is_tf_query (calls on_right) = [] /\
   filter is_insertion (calls on_right) = []).
Proof. exact (camera_info_quiet m info). Qed.

(** ** The configured frame *)

Lemma tf_targets_no_query (t : list Event) :
  filter is_tf_query t = [] -> tf_targets t = [].
Proof.
  induction t as [|e t IH]; [reflexivity|].
  destruct e; cbn [filter is_tf_query tf_targets tf_target];
    try discriminate; exact IH.
Qed.

Lemma insertPointcloudWithTf_targets (m : OctomapManager) (p : PointCloud2) :
  tf_targets (calls (insertPointcloudWithTf p m))
  = [world_frame_ m; world_frame_ m].
Proof.
  rewrite insertPointcloudWithTf_run. cbv zeta.
  destruct (result (lookupTransform _ _ _ _)); components;
    rewrite ?tf_targets_app, lookupTransform_targets; reflexivity.
Qed.

Lemma insertDisparityImageWithTf_targets (m : OctomapManager)
  (d : DisparityImage) :
  tf_targets (calls (insertDisparityImageWithTf d m))
  = if Q_initialized_ m then [world_frame_ m; world_frame_ m] else [].
Proof.
  destruct (Q_initialized_ m) eqn:Hq.
  - rewrite insertDisparityImageWithTf_ready by exact Hq. cbv zeta.
    destruct (result (lookupTransform _ _ _ _)); components;
      rewrite ?tf_targets_app, lookupTransform_targets; reflexivity.
  - rewrite insertDisparityImageWithTf_not_ready by exact Hq. reflexivity.
Qed.

(** One delivered message keeps the frame name and queries tf, if at all,
    with that frame as target. *)
Lemma deliver_targets (msg : Message) (m : OctomapManager) :
  world_frame_ (after (deliver msg m)) = world_frame_ m /\
  Forall (fun f => f = world_frame_ m) (tf_targets (calls (deliver msg m))).
Proof.
  destruct msg as [i | i | d | p]; cbn [deliver].
  - destruct (camera_info_quiet m i) as ((_ & Hf & _ & _ & _ & Hq & _) & _).
    split; [exact Hf|]. rewrite (tf_targets_no_query _ Hq). constructor.
  - destruct (camera_info_quiet m i) as (_ & (_ & Hf & _ & _ & _ & Hq & _)).
    split; [exact Hf|]. rewrite (tf_targets_no_query _ Hq). constructor.
  - split.
    + pose proof (insertDisparityImageWithTf_members m d) as Hm.
      unfold only_world_changed in Hm. rewrite Hm. destruct m. reflexivity.
    + rewrite insertDisparityImageWithTf_targets.
      destruct (Q_initialized_ m); repeat constructor.
  - split.
    + pose proof (insertPointcloudWithTf_members m p) as Hm.
      unfold only_world_changed in Hm. rewrite Hm. destruct m. reflexivity.
    + rewrite insertPointcloudWithTf_targets. repeat constructor.
Qed.

Lemma spin_targets (msgs : list Message) (m : OctomapManager) :
  world_frame_ (after (spin msgs m)) = world_frame_ m /\
  Forall (fun f => f = world_frame_ m) (tf_targets (calls (spin msgs m))).
Proof.
  revert m. induction msgs as [|msg rest IH]; intros m.
  - split; [reflexivity|constructor].
  - destruct (spin_cons msg rest m) as [-> ->].
    destruct (deliver_targets msg m) as [Hf Ht].
    destruct (IH (after (deliver msg m))) as [Hf' Ht'].
    rewrite Hf in Hf', Ht'.
    split; [exact Hf'|].
    rewrite tf_targets_app. apply Forall_app. split; assumption.
Qed.

(** X3: the frame name configured under [tf_frame] becomes [world_frame_]
    and stays so under every later sequence of messages; it is the target
    frame of every tf query made while those messages are handled, and of
    both queries of any frame dispatched afterwards: of every point cloud,
    and of every disparity frame that finds the readiness flag up, however
    it was raised (a disparity frame that finds it down makes no query). *)
Theorem configured_frame_is_the_lookup_target
  (m : OctomapManager) (frame : string) :
  param_string (nh_private_ m) "tf_frame" = Some frame ->
  let configured := after (setParametersFromROS m) in
  world_frame_ configured = frame /\
  (forall msgs : list Message,
      let r := spin msgs configured in
      world_frame_ (after r) = frame /\
      Forall (fun f => f = frame) (tf_targets (calls r)) /\
      (forall p : PointCloud2,
          tf_targets (calls (insertPointcloudWithTf p (after r)))
          = [frame; frame]) /\
      (forall d : DisparityImage,
          tf_targets (calls (insertDisparityImageWithTf d (after r)))
          = if Q_initialized_ (after r) then [frame; frame] else [])).
Proof.
  intros Hparam. cbv zeta.
  destruct (setParametersFromROS_members m) as (Hw & _).
  unfold param in Hw. rewrite Hparam in Hw.
  split; [exact Hw|]. intros msgs.
  destruct (spin_targets msgs (after (setParametersFromROS m))) as [Hf Ht].
  rewrite Hw in Hf, Ht.
  split; [exact Hf|]. split; [exact Ht|]. split.
  - intros p. rewrite insertPointcloudWithTf_targets, Hf. reflexivity.
  - intros d. rewrite insertDisparityImageWithTf_targets, Hf. reflexivity.
Qed.

(** ** Service handles *)

(** X18: [advertiseServices] advertises six services and stores their
    handles in five members: the handle of [set_box_occupancy] is assigned
    to [load_octree_service_], which the previous statement had given the
    handle of [load_map], and nothing else distinguishes the final state
    from the state after the first five statements.  When it returns, the
    four other handle members hold their own services, none of the five
    holds the [load_map] handle, and calibration, descriptors, frame name
    and map are as before. *)
Theorem advertiseServices_stores_six_handles_in_five_members
  (m : OctomapManager) :
  let before_last := after (advertise_through_load_map m) in
  let r := advertiseServices m in
  load_octree_service_ before_last = load_map_handle /\
  after r = set_load_octree_service_ set_box_occupancy_handle before_last /\
  calls r
  = [advertiseService_call "reset_map" resetMapCallback_fn;
     advertiseService_call "publish_all" publishAllCallback_fn;
     advertiseService_call "get_map" getOctomapCallback_fn;
     advertiseService_call "save_map" saveOctomapCallback_fn;
     advertiseService_call "load_map" loadOctomapCallback_fn;
     advertiseService_call "set_box_occupancy" setBoxOccupancyCallback_fn] /\
  service_members (after r)
  = [("reset_map_service_", Some ("reset_map", resetMapCallback_fn));
     ("publish_all_service_", Some ("publish_all", publishAllCallback_fn));
     ("get_map_service_", Some ("get_map", getOctomapCallback_fn));
     ("save_octree_service_", Some ("save_map", saveOctomapCallback_fn));
     ("load_octree_service_", set_box_occupancy_handle)] /\
  (forall (member : string) (h : ServiceServer),
      In (member, h) (service_members (after r)) -> h <> load_map_handle) /\
  (same_calibration m (after r) /\
   left_info_ (after r) = left_info_ m /\
   right_info_ (after r) = right_info_ m /\
   world_frame_ (after r) = world_frame_ m /\
   map_publish_frequency_ (after r) = map_publish_frequency_ m /\
   tf_listener_ (after r) = tf_listener_ m /\
   nh_private_ (after r) = nh_private_ m /\
   world (after r) = world m).
Proof.
  cbv zeta. split; [reflexivity|]. split; [reflexivity|].
  split; [reflexivity|]. split; [reflexivity|]. split.
  - intros member h Hin Hh. subst h. cbn in Hin.
    repeat (destruct Hin as [Hin|Hin]; [discriminate Hin|]).
    contradiction.
  - unfold same_calibration. repeat split.
Qed.

(** ** The latch over a whole run *)

Lemma lookupTransform_quiet (m : OctomapManager)
  (from_frame to_frame : string) (timestamp : Time) :
  let t := calls (lookupTransform from_frame to_frame timestamp m) in
  filter is_calibration_call t = [] /\
  filter is_throttled_warning t = [] /\
  filter is_disparity_insertion t = [].
Proof.
  cbv zeta. rewrite lookupTransform_run. unfold calls, lookup_error.
  cbn [snd].
  destruct (tf_canTransform (tf_listener_ m) to_frame from_frame timestamp);
    destruct (lookup_answer m from_frame to_frame timestamp);
    repeat split.
Qed.

Lemma only_world_changed_calibration (m m' : OctomapManager) :
  only_world_changed m m' -> same_calibration m m'.
Proof.
  unfold only_world_changed. intros ->. destruct m. repeat split.
Qed.

Lemma insertDisparityImageWithTf_no_calibration_call (m : OctomapManager)
  (d : DisparityImage) :
  filter is_calibration_call (calls (insertDisparityImageWithTf d m)) = [].
Proof.
  destruct (Q_initialized_ m) eqn:Hq.
  - rewrite insertDisparityImageWithTf_ready by exact Hq. cbv zeta.
    destruct (result (lookupTransform _ _ _ _)); components;
      rewrite ?filter_app, (proj1 (lookupTransform_quiet _ _ _ _));
      reflexivity.
  - rewrite insertDisparityImageWithTf_not_ready by exact Hq. reflexivity.
Qed.

Lemma insertPointcloudWithTf_no_calibration_call (m : OctomapManager)
  (p : PointCloud2) :
  filter is_calibration_call (calls (insertPointcloudWithTf p m)) = [].
Proof.
  rewrite insertPointcloudWithTf_run. cbv zeta.
  destruct (result (lookupTransform _ _ _ _)); components;
    rewrite ?filter_app, (proj1 (lookupTransform_quiet _ _ _ _));
    reflexivity.
Qed.

(** One delivered message either leaves the calibration alone, or finds the
    flag down, computes the matrix once and raises the flag. *)
Lemma deliver_step (msg : Message) (m : OctomapManager) :
  (filter is_calibration_call (calls (deliver msg m)) = [] /\
   same_calibration m (after (deliver msg m))) \/
  (Q_initialized_ m = false /\
   Q_initialized_ (after (deliver msg m)) = true /\
   exists l r,
     filter is_calibration_call (calls (deliver msg m))
     = [getQForROSCameras_call l r]).
Proof.
  destruct msg as [i | i | d | p]; cbn [deliver].
  - destruct (proj1 (cameraInfoCallback_cases m i))
      as [-> | (l & r & Hi & Hr & Hq & ->)].
    + left. repeat split.
    + right. destruct (calculateQ_both (set_left_info_ i m) l r)
        as ((Hc & _ & Hf & _) & _); [exact Hi|exact Hr|].
      split; [exact Hq|]. split; [exact Hf|].
      exists l, r. rewrite Hc. reflexivity.
  - destruct (proj2 (cameraInfoCallback_cases m i))
      as [-> | (l & r & Hl & Hi & Hq & ->)].
    + left. repeat split.
    + right. destruct (calculateQ_both (set_right_info_ i m) l r)
        as ((Hc & _ & Hf & _) & _); [exact Hl|exact Hi|].
      split; [exact Hq|]. split; [exact Hf|].
      exists l, r. rewrite Hc. reflexivity.
  - left. split.
    + apply insertDisparityImageWithTf_no_calibration_call.
    + apply only_world_changed_calibration,
        insertDisparityImageWithTf_members.
  - left. split.
    + apply insertPointcloudWithTf_no_calibration_call.
    + apply only_world_changed_calibration, insertPointcloudWithTf_members.
Qed.

Lemma same_calibration_trans (a b c : OctomapManager) :
  same_calibration a b -> same_calibration b c -> same_calibration a c.
Proof.
  unfold same_calibration. intros (H1 & H2 & H3) (H4 & H5 & H6).
  repeat split; congruence.
Qed.

Lemma spin_latch (msgs : list Message) (m : OctomapManager) :
  (filter is_calibration_call (calls (spin msgs m)) = [] /\
   same_calibration m (after (spin msgs m))) \/
  (Q_initialized_ m = false /\
   Q_initialized_ (after (spin msgs m)) = true /\
   exists l r,
     filter is_calibration_call (calls (spin msgs m))
     = [getQForROSCameras_call l r]).
Proof.
  revert m. induction msgs as [|msg rest IH]; intros m.
  - left. repeat split.
  - destruct (spin_cons msg rest m) as [-> ->]. rewrite filter_app.
    destruct (deliver_step msg m) as [[Hc Hs] | (Hq & Hq1 & l & r & Hc)].
    + destruct (IH (after (deliver msg m)))
        as [[Hc' Hs'] | (Hq' & Hq1' & l & r & Hc')].
      * left. rewrite Hc, Hc'. split; [reflexivity|].
        exact (same_calibration_trans _ _ _ Hs Hs').
      * right. destruct Hs as (_ & Hi & _).
        split; [congruence|]. split; [exact Hq1'|].
        exists l, r. rewrite Hc, Hc'. reflexivity.
    + right. split; [exact Hq|].
      destruct (spin_when_ready rest (after (deliver msg m)) Hq1)
        as [(_ & Hi & _) Hc'].
      split; [congruence|].
      exists l, r. rewrite Hc, Hc'. reflexivity.
Qed.

(** X6: in any run of delivered messages, from any state, the matrix is
    computed from the descriptors at most once; a run that ends with the
    flag down started with it down, computed nothing and left matrix and
    image size untouched; a run that did compute started with the flag down
    and ends with it up. *)
Theorem matrix_is_derived_at_most_once
  (msgs : list Message) (m : OctomapManager) :
  let r := spin msgs m in
  List.length (filter is_calibration_call (calls r)) <= 1 /\
  (Q_initialized_ (after r) = false ->
   Q_initialized_ m = false /\
   filter is_calibration_call (calls r) = [] /\
   Q_ (after r) = Q_ m /\
   full_image_size_ (after r) = full_image_size_ m) /\
  (filter is_calibration_call (calls r) <> [] ->
   Q_initialized_ m = false /\ Q_initialized_ (after r) = true).
Proof.
  cbv zeta.
  destruct (spin_latch msgs m) as [[Hc (HQ & Hi & Hs)] | (Hq & Hq1 & l & r & Hc)];
    rewrite Hc.
  - split; [cbn; lia|]. split.
    + intros H. repeat split; congruence.
    + intros H. contradiction H. reflexivity.
  - split; [cbn; lia|]. split.
    + intros H. congruence.
    + intros _. split; assumption.
Qed.

Lemma deliver_without_right (msg : Message) (m : OctomapManager) :
  Q_initialized_ m = false ->
  right_info_ m = None ->
  is_right_descriptor msg = false ->
  right_info_ (after (deliver msg m)) = None /\
  still_waiting m [msg] (deliver msg m).
Proof.
  intros Hq Hr Hmsg. unfold still_waiting.
  destruct msg as [i | [i|] | d | p]; cbn [deliver]; try discriminate Hmsg.
  - rewrite leftCameraInfoCallback_skip
      by (rewrite Hr; cbn; rewrite andb_false_r; reflexivity).
    repeat split; assumption.
  - rewrite rightCameraInfoCallback_skip
      by (cbn; rewrite andb_false_r; reflexivity).
    repeat split; assumption.
  - rewrite insertDisparityImageWithTf_not_ready by exact Hq.
    repeat split; assumption.
  - pose proof (insertPointcloudWithTf_members m p) as Hm.
    unfold only_world_changed in Hm. rewrite Hm.
    split; [destruct m; exact Hr|].
    rewrite <- Hm.
    split; [rewrite Hm; destruct m; exact Hq|].
    split; [rewrite Hm; destruct m; reflexivity|].
    split; [rewrite Hm; destruct m; reflexivity|].
    rewrite insertPointcloudWithTf_run. cbv zeta.
    destruct (lookupTransform_quiet m (frame_id (pointcloud_header p))
                (world_frame_ m) (stamp (pointcloud_header p)))
      as (Hc & Ht & Hd).
    destruct (result (lookupTransform _ _ _ _)); components;
      rewrite ?filter_app, Hc, Ht, Hd; repeat split.
Qed.

Lemma deliver_without_left (msg : Message) (m : OctomapManager) :
  Q_initialized_ m = false ->
  left_info_ m = None ->
  is_left_descriptor msg = false ->
  left_info_ (after (deliver msg m)) = None /\
  still_waiting m [msg] (deliver msg m).
Proof.
  intros Hq Hl Hmsg. unfold still_waiting.
  destruct msg as [[i|] | i | d | p]; cbn [deliver]; try discriminate Hmsg.
  - rewrite leftCameraInfoCallback_skip by reflexivity.
    repeat split; assumption.
  - rewrite rightCameraInfoCallback_skip by (rewrite Hl; reflexivity).
    repeat split; assumption.
  - rewrite insertDisparityImageWithTf_not_ready by exact Hq.
    repeat split; assumption.
  - pose proof (insertPointcloudWithTf_members m p) as Hm.
    unfold only_world_changed in Hm. rewrite Hm.
    split; [destruct m; exact Hl|].
    rewrite <- Hm.
    split; [rewrite Hm; destruct m; exact Hq|].
    split; [rewrite Hm; destruct m; reflexivity|].
    split; [rewrite Hm; destruct m; reflexivity|].
    rewrite insertPointcloudWithTf_run. cbv zeta.
    destruct (lookupTransform_quiet m (frame_id (pointcloud_header p))
                (world_frame_ m) (stamp (pointcloud_header p)))
      as (Hc & Ht & Hd).
    destruct (result (lookupTransform _ _ _ _)); components;
      rewrite ?filter_app, Hc, Ht, Hd; repeat split.
Qed.

Lemma still_waiting_cons (msg : Message) (rest : list Message)
  (m : OctomapManager) :
  still_waiting m [msg] (deliver msg m) ->
  still_waiting (after (deliver msg m)) rest
    (spin rest (after (deliver msg m))) ->
  still_waiting m (msg :: rest) (spin (msg :: rest) m).
Proof.
  unfold still_waiting.
  intros (H1 & H2 & H3 & H4 & H5 & H6) (G1 & G2 & G3 & G4 & G5 & G6).
  destruct (spin_cons msg rest m) as [-> ->].
  rewrite !filter_app, H4, H5, G4, G5, length_app, H6, G6.
  repeat split; try congruence.
  cbn [filter]. destruct (is_disparity_msg msg); reflexivity.
Qed.

(** X7: while the flag is down and one side has never delivered a
    descriptor, no sequence of messages without a descriptor from that side
    raises it: the matrix is never computed, matrix and image size stay as
    they were, no disparity frame reaches the engine, and every disparity
    frame is answered by exactly one throttled warning. *)
Theorem one_camera_alone_never_calibrates
  (msgs : list Message) (m : OctomapManager) :
  Q_initialized_ m = false ->
  (right_info_ m = None /\ filter is_right_descriptor msgs = []) \/
  (left_info_ m = None /\ filter is_left_descriptor msgs = []) ->
  still_waiting m msgs (spin msgs m).
Proof.
  intros Hq [[Hr Hn] | [Hl Hn]].
  - revert m Hq Hr. induction msgs as [|msg rest IH]; intros m Hq Hr.
    + unfold still_waiting. repeat split. exact Hq.
    + cbn [filter] in Hn.
      destruct (is_right_descriptor msg) eqn:Hmsg; [discriminate Hn|].
      destruct (deliver_without_right msg m Hq Hr Hmsg) as [Hr' Hw].
      apply still_waiting_cons; [exact Hw|].
      apply IH; [exact Hn| |exact Hr'].
      destruct Hw as (Hw & _). exact Hw.
  - revert m Hq Hl. induction msgs as [|msg rest IH]; intros m Hq Hl.
    + unfold still_waiting. repeat split. exact Hq.
    + cbn [filter] in Hn.
      destruct (is_left_descriptor msg) eqn:Hmsg; [discriminate Hn|].
      destruct (deliver_without_left msg m Hq Hl Hmsg) as [Hl' Hw].
      apply still_waiting_cons; [exact Hw|].
      apply IH; [exact Hn| |exact Hl'].
      destruct Hw as (Hw & _). exact Hw.
Qed.

(** ** From calibration to insertion *)

Lemma lookup_answer_members (m m' : OctomapManager)
  (from_frame : string) (timestamp : Time) :
  tf_listener_ m' = tf_listener_ m ->
  world_frame_ m' = world_frame_ m ->
  lookup_answer m' from_frame (world_frame_ m') timestamp
  = lookup_answer m from_frame (world_frame_ m) timestamp /\
  lookup_time m' from_frame (world_frame_ m') timestamp
  = lookup_time m from_frame (world_frame_ m) timestamp.
Proof.
  intros Ht Hw. unfold lookup_answer, lookup_time. rewrite Ht, Hw.
  split; reflexivity.
Qed.

Lemma insertDisparityImageWithTf_found (m : OctomapManager)
  (d : DisparityImage) (x : StampedTransform) :
  Q_initialized_ m = true ->
  lookup_answer m (frame_id (disparity_header d)) (world_frame_ m)
    (stamp (disparity_header d)) = inl x ->
  filter is_insertion (calls (insertDisparityImageWithTf d m))
  = [insertDisparityImage_call (transformTFToKindr x) d (Q_ m)
       (full_image_size_ m)] /\
  world (after (insertDisparityImageWithTf d m))
  = insertDisparityImage (transformTFToKindr x) d (Q_ m)
      (full_image_size_ m) (world m).
Proof.
  intros Hq Hx. rewrite insertDisparityImageWithTf_ready by exact Hq.
  cbv zeta. rewrite lookupTransform_run, Hx. components.
  split; [|destruct m; reflexivity].
  destruct (tf_canTransform _ _ _ _); reflexivity.
Qed.

(** X8: when the flag is down and one descriptor is stored, the arrival of
    the other one followed by a disparity frame whose transform is found
    inserts that frame with the matrix computed from the pair and with the
    left camera's width and height as image size, whatever size had been
    configured. *)
Theorem second_descriptor_enables_next_disparity_frame
  (m : OctomapManager) (msg : Message) (l rt : CameraInfo)
  (d : DisparityImage) (x : StampedTransform) :
  Q_initialized_ m = false ->
  (left_info_ m = Some l /\ msg = cam1_camera_info (Some rt)) \/
  (right_info_ m = Some rt /\ msg = cam0_camera_info (Some l)) ->
  lookup_answer m (frame_id (disparity_header d)) (world_frame_ m)
    (stamp (disparity_header d)) = inl x ->
  let r := spin [msg; disparity_msg d] m in
  let size := (scalar_of_integer (Z.of_N (width l)),
               scalar_of_integer (Z.of_N (height l))) in
  filter is_calibration_call (calls r) = [getQForROSCameras_call l rt] /\
  filter is_insertion (calls r)
  = [insertDisparityImage_call (transformTFToKindr x) d
       (getQForROSCameras l rt) size] /\
  world (after r)
  = insertDisparityImage (transformTFToKindr x) d (getQForROSCameras l rt)
      size (world m).
Proof.
  intros Hq Hmsg Hx. cbv zeta.
  destruct (spin_cons msg [disparity_msg d] m) as [-> ->].
  destruct (spin_cons (disparity_msg d) [] (after (deliver msg m)))
    as [-> ->].
  cbn [spin].
  assert (Hstep : derives (deliver msg m) l rt /\
                  world (after (deliver msg m)) = world m /\
                  tf_listener_ (after (deliver msg m)) = tf_listener_ m /\
                  world_frame_ (after (deliver msg m)) = world_frame_ m).
  { destruct Hmsg as [[Hl ->] | [Hr ->]]; cbn [deliver].
    - rewrite rightCameraInfoCallback_compute
        by (rewrite Hl, Hq; reflexivity).
      destruct (calculateQ_both (set_right_info_ (Some rt) m) l rt)
        as (Hd & _); [exact Hl|reflexivity|].
      destruct (calculateQ_members (set_right_info_ (Some rt) m))
        as (Hw & Hf & Ht & _).
      repeat split; try apply Hd; assumption.
    - rewrite leftCameraInfoCallback_compute
        by (rewrite Hr, Hq; reflexivity).
      destruct (calculateQ_both (set_left_info_ (Some l) m) l rt)
        as (Hd & _); [reflexivity|exact Hr|].
      destruct (calculateQ_members (set_left_info_ (Some l) m))
        as (Hw & Hf & Ht & _).
      repeat split; try apply Hd; assumption. }
  destruct Hstep as ((Hc & HQ & Hi & Hs) & Hw & Ht & Hf).
  destruct (lookup_answer_members m (after (deliver msg m))
              (frame_id (disparity_header d)) (stamp (disparity_header d))
              Ht Hf) as [Ha _].
  rewrite <- Ha in Hx.
  destruct (insertDisparityImageWithTf_found (after (deliver msg m)) d x
              Hi Hx) as [Hins Hworld].
  cbn [deliver]. rewrite !filter_app, Hc.
  rewrite insertDisparityImageWithTf_no_calibration_call.
  unfold ret. components. cbn [filter is_calibration_call is_insertion app].
  rewrite Hins, Hworld, HQ, Hs, Hw.
  repeat split.
Qed.

(** X9: after a configuration with sixteen coefficients under [Q], and
    after any messages delivered since, a disparity frame whose transform
    is found is inserted with exactly the configured matrix and with the
    image size the configuration left (the [full_image_width] and
    [full_image_height] parameters, or the previous values): descriptors
    that arrived in between have changed neither. *)
Theorem explicit_calibration_reaches_the_engine
  (m : OctomapManager) (Q_vec : list D) (msgs : list Message)
  (d : DisparityImage) (x : StampedTransform) :
  List.length Q_vec = 16 ->
  param_double_vector (nh_private_ m) "Q" = Some Q_vec ->
  let configured := after (setParametersFromROS m) in
  let now := after (spin msgs configured) in
  lookup_answer now (frame_id (disparity_header d)) (world_frame_ now)
    (stamp (disparity_header d)) = inl x ->
  filter is_insertion (calls (insertDisparityImageWithTf d now))
  = [insertDisparityImage_call (transformTFToKindr x) d
       (Matrix4d_init (RowMajorMap_coeff Q_vec))
       (param (param_scalar (nh_private_ m)) "full_image_width"
          (fst (full_image_size_ m)),
        param (param_scalar (nh_private_ m)) "full_image_height"
          (snd (full_image_size_ m)))] /\
  row_major (Matrix4d_init (RowMajorMap_coeff Q_vec)) = Q_vec.
Proof.
  intros Hlen Hq. cbv zeta. intros Hx.
  destruct (setParametersFromROS_Q_16 m Q_vec Hlen Hq) as [Hi HQ].
  destruct (setParametersFromROS_members m) as (_ & Hs & _).
  destruct (spin_when_ready msgs (after (setParametersFromROS m)) Hi)
    as [(HQ' & Hi' & Hs') _].
  rewrite Hi in Hi'.
  destruct (insertDisparityImageWithTf_found _ d x Hi' Hx) as [Hins _].
  rewrite Hins, HQ', Hs', HQ, Hs.
  split; [reflexivity|]. apply row_major_RowMajorMap, Hlen.
Qed.

(** ** Order of delivery *)

Lemma cameraInfoCallback_set_world (m : OctomapManager)
  (info : option CameraInfo) (w : OctomapWorld) :
  leftCameraInfoCallback info (set_world w m)
  = (tt, set_world w (after (leftCameraInfoCallback info m)),
     calls (leftCameraInfoCallback info m)) /\
  rightCameraInfoCallback info (set_world w m)
  = (tt, set_world w (after (rightCameraInfoCallback info m)),
     calls (rightCameraInfoCallback info m)).
Proof.
  unfold leftCameraInfoCallback, rightCameraInfoCallback, calculateQ. run.
  destruct m as [? ? q ? ? ? li ri ? ? ? ? ? ? ?]. cbn.
  split.
  - destruct info, ri, q; reflexivity.
  - destruct li, info, q; reflexivity.
Qed.

Lemma insertPointcloudWithTf_after_camera_info (m m' : OctomapManager)
  (p : PointCloud2) :
  tf_listener_ m' = tf_listener_ m ->
  world_frame_ m' = world_frame_ m ->
  world m' = world m ->
  calls (insertPointcloudWithTf p m') = calls (insertPointcloudWithTf p m) /\
  after (insertPointcloudWithTf p m')
  = set_world (world (after (insertPointcloudWithTf p m))) m'.
Proof.
  intros Ht Hf Hw. rewrite !insertPointcloudWithTf_run. cbv zeta.
  rewrite !lookupTransform_run. components.
  destruct (lookup_answer_members m m' (frame_id (pointcloud_header p))
              (stamp (pointcloud_header p)) Ht Hf) as [-> ->].
  rewrite Hf, Ht, Hw.
  destruct (lookup_answer m _ _ _); components.
  - split; [reflexivity|]. destruct m, m'. reflexivity.
  - split; [reflexivity|]. destruct m, m'. cbn in *. subst. reflexivity.
Qed.

(** X10: a point cloud and a camera-info message may be delivered in
    either order: the manager ends in the same state, and the point cloud
    makes the same calls, because the one touches only the map and the
    other never reads it. *)
Theorem pointcloud_commutes_with_camera_info
  (m : OctomapManager) (p : PointCloud2) (msg : Message) :
  (exists info, msg = cam0_camera_info info \/ msg = cam1_camera_info info) ->
  after (spin [pointcloud_msg p; msg] m)
  = after (spin [msg; pointcloud_msg p] m) /\
  calls (insertPointcloudWithTf p (after (deliver msg m)))
  = calls (insertPointcloudWithTf p m) /\
  calls (deliver msg (after (insertPointcloudWithTf p m)))
  = calls (deliver msg m).
Proof.
  intros (info & Hmsg).
  destruct (spin_cons (pointcloud_msg p) [msg] m) as [-> _].
  destruct (spin_cons msg [] (after (deliver (pointcloud_msg p) m)))
    as [-> _].
  destruct (spin_cons msg [pointcloud_msg p] m) as [-> _].
  destruct (spin_cons (pointcloud_msg p) [] (after (deliver msg m)))
    as [-> _].
  cbn [spin deliver]. unfold ret. components.
  pose proof (insertPointcloudWithTf_members m p) as Hp.
  unfold only_world_changed in Hp.
  destruct (camera_info_quiet m info)
    as ((Hw & Hf & Ht & _) & (Hw' & Hf' & Ht' & _)).
  destruct (cameraInfoCallback_set_world m info
              (world (after (insertPointcloudWithTf p m)))) as [Hl Hr].
  destruct Hmsg as [-> | ->]; cbn [deliver].
  - destruct (insertPointcloudWithTf_after_camera_info m
                (after (leftCameraInfoCallback info m)) p Ht Hf Hw)
      as [Hc Ha].
    rewrite Ha, Hc. rewrite Hp at 1 3. rewrite Hl. components.
    repeat split.
  - destruct (insertPointcloudWithTf_after_camera_info m
                (after (rightCameraInfoCallback info m)) p Ht' Hf' Hw')
      as [Hc Ha].
    rewrite Ha, Hc. rewrite Hp at 1 3. rewrite Hr. components.
    repeat split.
Qed.

(** ** Edges of the lookup *)

(** X11: the fallback to the latest transform is decided by the
    availability check alone.  When the check succeeds and the lookup at
    the requested time then throws, the call fails with the error report
    and the frame is not retried at time zero: the buffer is queried twice,
    both times at the requested time, and no warning is emitted. *)
Theorem no_fallback_after_a_failed_lookup
  (m : OctomapManager) (from_frame to_frame : string) (timestamp : Time)
  (what : string) :
  tf_canTransform (tf_listener_ m) to_frame from_frame timestamp = true ->
  tf_lookupTransform (tf_listener_ m) to_frame from_frame timestamp
  = inr what ->
  let r := lookupTransform from_frame to_frame timestamp m in
  result r = None /\
  calls r
  = [canTransform_call to_frame from_frame timestamp;
     lookupTransform_call to_frame from_frame timestamp;
     lookup_error what].
Proof.
  intros Hcan Hthrow. cbv zeta. rewrite lookupTransform_run.
  unfold lookup_answer, lookup_time. rewrite Hcan, Hthrow.
  split; reflexivity.
Qed.

(** ** Services and the calibration *)

(** X12: the map services [reset_map], [load_map] and
    [set_box_occupancy] act on the map only: stored descriptors, matrix,
    readiness flag and image size are as before, so a manager that was
    ready stays ready across a reset or a reload of the map. *)
Theorem map_services_keep_calibration
  (m : OctomapManager) (file_path : string)
  (request : SetBoxOccupancyRequest) :
  only_world_changed m (after (resetMapCallback m)) /\
  only_world_changed m (after (loadOctomapCallback file_path m)) /\
  only_world_changed m (after (setBoxOccupancyCallback request m)) /\
  same_calibration m (after (resetMapCallback m)) /\
  same_calibration m (after (loadOctomapCallback file_path m)) /\
  same_calibration m (after (setBoxOccupancyCallback request m)).
Proof.
  assert (H1 : only_world_changed m (after (resetMapCallback m))).
  { unfold resetMapCallback. run. apply set_world_same_members. }
  assert (H2 : only_world_changed m (after (loadOctomapCallback file_path m))).
  { unfold loadOctomapCallback.
    destruct (loadOctomapFromFile file_path (world m)) as [ok w].
    components. apply set_world_same_members. }
  assert (H3 : only_world_changed m
                 (after (setBoxOccupancyCallback request m))).
  { unfold setBoxOccupancyCallback.
    destruct (set_occupied request); run; apply set_world_same_members. }
  repeat split; try assumption;
    first [apply (only_world_changed_calibration _ _ H1)
          |apply (only_world_changed_calibration _ _ H2)
          |apply (only_world_changed_calibration _ _ H3)].
Qed.

End Coverage.

(** * Properties of the node *)

Section NodeCoverage.

Context `{P : Publishing}.

Local Open Scope node_scope.

(** Unfolds the plumbing of a node-level function. *)
Ltac nrun :=
  unfold node_result, node_after, node_calls, nbind, nret, node, nassign,
    nemit, base_query, nh_subscribe, advertise, createTimer in *;
  cbn [fst snd] in *.

Lemma nbind_run {A B} (c : N A) (k : A -> N B) (n : Node) :
  nbind c k n
  = (node_result (k (node_result (c n)) (node_after (c n))),
     node_after (k (node_result (c n)) (node_after (c n))),
     (node_calls (c n)
        ++ node_calls (k (node_result (c n)) (node_after (c n))))%list).
Proof.
  unfold nbind, node_result, node_after, node_calls.
  destruct (c n) as [[a n1] t1]. cbn [fst snd].
  destruct (k a n1) as [[b n2] t2]. reflexivity.
Qed.

Lemma lift_run {A} (c : M A) (n : Node) :
  lift c n
  = (result (c (manager n)), set_manager (after (c (manager n))) n,
     map manager_event (calls (c (manager n)))).
Proof.
  unfold lift, result, after, calls.
  destruct (c (manager n)) as [[a m] t]. reflexivity.
Qed.

Lemma subscribe_run (n : Node) :
  subscribe n
  = (tt,
     set_pointcloud_sub_
       (Some ("pointcloud", 40, insertPointcloudWithTf_fn))
       (set_disparity_sub_
          (Some ("disparity", 40, insertDisparityImageWithTf_fn))
          (set_right_info_sub_
             (Some ("cam1/camera_info", 1, rightCameraInfoCallback_fn))
             (set_left_info_sub_
                (Some ("cam0/camera_info", 1, leftCameraInfoCallback_fn))
                n))),
     [subscribe_call "cam0/camera_info" 1 leftCameraInfoCallback_fn;
      subscribe_call "cam1/camera_info" 1 rightCameraInfoCallback_fn;
      subscribe_call "disparity" 40 insertDisparityImageWithTf_fn;
      subscribe_call "pointcloud" 40 insertPointcloudWithTf_fn]).
Proof. reflexivity. Qed.

Lemma advertisePublishers_run (n : Node) :
  let freq := map_publish_frequency_ (manager n) in
  let advertised :=
    set_full_map_pub_ (Some ("octomap_full", 1, true, Octomap_type))
      (set_binary_map_pub_ (Some ("octomap_binary", 1, true, Octomap_type))
         (set_free_nodes_pub_
            (Some ("octomap_free", 1, true, MarkerArray_type))
            (set_occupied_nodes_pub_
               (Some ("octomap_occupied", 1, true, MarkerArray_type)) n))) in
  let announced :=
    [advertise_call "octomap_occupied" 1 true MarkerArray_type;
     advertise_call "octomap_free" 1 true MarkerArray_type;
     advertise_call "octomap_binary" 1 true Octomap_type;
     advertise_call "octomap_full" 1 true Octomap_type] in
  advertisePublishers n
  = if D_gt freq D_0
    then (tt,
          set_map_publish_timer_ (Some (D_div D_1 freq)) advertised,
          (announced ++ [createTimer_call (D_div D_1 freq)])%list)
    else (tt, advertised, announced).
Proof.
  cbv zeta. unfold advertisePublishers. nrun. cbn.
  destruct (D_gt (map_publish_frequency_ (manager n)) D_0); reflexivity.
Qed.

Lemma constructor_run (nh : NodeHandle) (tf : TransformListener)
  (base : OctomapWorld) :
  let start := member_initializers nh tf base in
  let configured := setParametersFromROS start in
  let served := advertiseServices (after configured) in
  let wired :=
    subscribe (mkNode (after configured)
                 None None None None None None None None None) in
  let published :=
    advertisePublishers (set_manager (after served) (node_after wired)) in
  OctomapManager_constructor nh tf base
  = (node_after published,
     (map manager_event (calls configured)
        ++ node_calls wired
        ++ map manager_event (calls served)
        ++ node_calls published)%list).
Proof.
  cbv zeta. unfold OctomapManager_constructor.
  rewrite nbind_run, lift_run. cbn [node_result node_after node_calls fst snd].
  rewrite nbind_run, subscribe_run.
  cbn [node_result node_after node_calls fst snd].
  rewrite nbind_run, lift_run. cbn [node_result node_after node_calls fst snd].
  reflexivity.
Qed.

Lemma advertiseServices_members (m : OctomapManager) :
  let m' := after (advertiseServices m) in
  Q_initialized_ m' = Q_initialized_ m /\
  Q_ m' = Q_ m /\
  full_image_size_ m' = full_image_size_ m /\
  map_publish_frequency_ m' = map_publish_frequency_ m /\
  world_frame_ m' = world_frame_ m /\
  left_info_ m' = left_info_ m /\
  right_info_ m' = right_info_ m /\
  tf_listener_ m' = tf_listener_ m /\
  world m' = world m.
Proof. cbv zeta. repeat split. Qed.

Lemma constructed_manager (nh : NodeHandle) (tf : TransformListener)
  (base : OctomapWorld) :
  manager (fst (OctomapManager_constructor nh tf base))
  = after (advertiseServices
             (after (setParametersFromROS (member_initializers nh tf base)))).
Proof.
  rewrite constructor_run. cbv zeta. cbn [fst].
  rewrite advertisePublishers_run. cbv zeta.
  destruct (D_gt _ D_0); reflexivity.
Qed.

(** X13: the manager that the constructor returns is ready exactly when
    the configuration holds sixteen coefficients under [Q]; otherwise its
    matrix is the identity and every disparity frame is answered by the
    throttled warning alone.  In both cases no descriptor is stored, and
    frame name and image size are the configured ones or the defaults
    [world] and 752 by 480. *)
Theorem constructed_manager_is_ready_only_with_valid_Q
  (nh : NodeHandle) (tf : TransformListener) (base : OctomapWorld) :
  let m := manager (fst (OctomapManager_constructor nh tf base)) in
  Q_initialized_ m
  = match param_double_vector nh "Q" with
    | Some Q_vec => Nat.eqb (List.length Q_vec) 16
    | None => false
    end /\
  (Q_initialized_ m = false ->
   Q_ m = Identity /\
   forall d : DisparityImage,
     insertDisparityImageWithTf d m
     = (tt, m, [ROS_WARN_THROTTLE 1 not_ready_warning])) /\
  left_info_ m = None /\
  right_info_ m = None /\
  world_frame_ m = param (param_string nh) "tf_frame" "world" /\
  full_image_size_ m
  = (param (param_scalar nh) "full_image_width" (scalar_of_integer 752),
     param (param_scalar nh) "full_image_height" (scalar_of_integer 480)) /\
  tf_listener_ m = tf.
Proof.
  cbv zeta. rewrite constructed_manager.
  set (start := member_initializers nh tf base).
  destruct (advertiseServices_members (after (setParametersFromROS start)))
    as (Hi & HQ & Hs & _ & Hf & Hl & Hr & Ht & _).
  destruct (setParametersFromROS_members start)
    as (Hf' & Hs' & _ & Ht' & _ & Hl' & Hr').
  pose proof (setParametersFromROS_readiness start) as Hready.
  cbv zeta in Hready.
  change (nh_private_ start) with nh in *.
  assert (Hflag :
            Q_initialized_
              (after (advertiseServices (after (setParametersFromROS start))))
            = match param_double_vector nh "Q" with
              | Some Q_vec => Nat.eqb (List.length Q_vec) 16
              | None => false
              end).
  { rewrite Hi. destruct (param_double_vector nh "Q");
      [apply Hready|apply (proj1 Hready)]. }
  split; [exact Hflag|]. split.
  - intros Hdown. split.
    + rewrite HQ. rewrite Hflag in Hdown.
      destruct (param_double_vector nh "Q") as [Q_vec|].
      * destruct Hready as [_ ->]. rewrite Hdown. reflexivity.
      * destruct Hready as (_ & -> & _). reflexivity.
    + intros d. apply insertDisparityImageWithTf_not_ready, Hdown.
  - rewrite Hl, Hr, Hf, Hs, Ht, Hl', Hr', Hf', Hs', Ht'.
    repeat split.
Qed.

Lemma constructed_frequency (nh : NodeHandle) (tf : TransformListener)
  (base : OctomapWorld) :
  map_publish_frequency_
    (after (advertiseServices
              (after (setParametersFromROS (member_initializers nh tf base)))))
  = param (param_double nh) "map_publish_frequency" D_0.
Proof.
  destruct (advertiseServices_members
              (after (setParametersFromROS (member_initializers nh tf base))))
    as (_ & _ & _ & -> & _).
  destruct (setParametersFromROS_members (member_initializers nh tf base))
    as (_ & _ & -> & _).
  reflexivity.
Qed.

(** X14: the constructor creates the publication timer exactly when the
    configured [map_publish_frequency] (0.0 when unset) is greater than
    0.0, and then with period 1.0 divided by that frequency: the parameter
    is read before the publishers are set up, so the configured value is
    the one tested. *)
Theorem constructor_creates_timer_for_positive_frequency
  (nh : NodeHandle) (tf : TransformListener) (base : OctomapWorld) :
  let freq := param (param_double nh) "map_publish_frequency" D_0 in
  let built := OctomapManager_constructor nh tf base in
  map_publish_timer_ (fst built)
  = (if D_gt freq D_0 then Some (D_div D_1 freq) else None) /\
  filter is_timer_creation (snd built)
  = (if D_gt freq D_0 then [createTimer_call (D_div D_1 freq)] else []).
Proof.
  cbv zeta. rewrite constructor_run. cbv zeta. cbn [fst snd].
  rewrite advertisePublishers_run. cbv zeta.
  cbn [manager set_manager]. rewrite constructed_frequency.
  rewrite !filter_app, subscribe_run.
  assert (Hm : forall t : list Event,
             filter is_timer_creation (map manager_event t) = []).
  { induction t as [|e t IH]; [reflexivity|exact IH]. }
  rewrite !Hm.
  destruct (D_gt (param (param_double nh) "map_publish_frequency" D_0) D_0);
    split; reflexivity.
Qed.

Lemma setParametersFromROS_registers_nothing (m : OctomapManager) :
  filter is_registration
    (map manager_event (calls (setParametersFromROS m))) = [].
Proof.
  unfold setParametersFromROS. run.
  destruct (param_double_vector (nh_private_ m) "Q") as [Q_vec|]; run.
  - unfold setQFromParams.
    destruct (Nat.eqb (List.length Q_vec) 16); reflexivity.
  - reflexivity.
Qed.

(** X15: whatever the configuration, the constructor registers the same
    fourteen endpoints in the same order: four subscriptions, six services
    and four latched publishers; no parameter changes a topic or service
    name, a queue size or a callback. *)
Theorem constructor_registrations_do_not_depend_on_configuration
  (nh : NodeHandle) (tf : TransformListener) (base : OctomapWorld) :
  filter is_registration (snd (OctomapManager_constructor nh tf base))
  = [subscribe_call "cam0/camera_info" 1 leftCameraInfoCallback_fn;
     subscribe_call "cam1/camera_info" 1 rightCameraInfoCallback_fn;
     subscribe_call "disparity" 40 insertDisparityImageWithTf_fn;
     subscribe_call "pointcloud" 40 insertPointcloudWithTf_fn;
     manager_event (advertiseService_call "reset_map" resetMapCallback_fn);
     manager_event (advertiseService_call "publish_all" publishAllCallback_fn);
     manager_event (advertiseService_call "get_map" getOctomapCallback_fn);
     manager_event (advertiseService_call "save_map" saveOctomapCallback_fn);
     manager_event (advertiseService_call "load_map" loadOctomapCallback_fn);
     manager_event
       (advertiseService_call "set_box_occupancy" setBoxOccupancyCallback_fn);
     advertise_call "octomap_occupied" 1 true MarkerArray_type;
     advertise_call "octomap_free" 1 true MarkerArray_type;
     advertise_call "octomap_binary" 1 true Octomap_type;
     advertise_call "octomap_full" 1 true Octomap_type].
Proof.
  rewrite constructor_run. cbv zeta. cbn [snd].
  rewrite !filter_app, setParametersFromROS_registers_nothing.
  rewrite advertisePublishers_run. cbv zeta.
  destruct (D_gt _ D_0); reflexivity.
Qed.

(** ** Publication *)

(** X16: [publishAll] makes seven calls in a fixed order, whatever the
    snapshot members return: it generates the markers for [world_frame_],
    publishes the occupied markers on [occupied_nodes_pub_] and the free
    markers on [free_nodes_pub_], takes the binary and then the full
    snapshot, each into a fresh message, and publishes the binary one on
    [binary_map_pub_] and the full one on [full_map_pub_].  Each published
    map is the message the base class filled, with its frame id replaced by
    [world_frame_] and stamp and body kept.  Of the node only the
    base-class state changes, as the three base-class calls leave it. *)
Theorem publishAll_publishes_four_messages_in_world_frame (n : Node) :
  let frame := world_frame_ (manager n) in
  let markers :=
    generateMarkerArray frame MarkerArray_default MarkerArray_default
      (world (manager n)) in
  let binary := getOctomapBinaryMsg Octomap_default (snd markers) in
  let full := getOctomapFullMsg Octomap_default (snd binary) in
  let binary_map := set_frame_id frame (snd (fst binary)) in
  let full_map := set_frame_id frame (snd (fst full)) in
  let r := publishAll n in
  node_calls r
  = [generateMarkerArray_call frame;
     publish_markers (occupied_nodes_pub_ n) (fst (fst markers));
     publish_markers (free_nodes_pub_ n) (snd (fst markers));
     getOctomapBinaryMsg_call;
     getOctomapFullMsg_call;
     publish_octomap (binary_map_pub_ n) binary_map;
     publish_octomap (full_map_pub_ n) full_map] /\
  filter is_publication (node_calls r)
  = [publish_markers (occupied_nodes_pub_ n) (fst (fst markers));
     publish_markers (free_nodes_pub_ n) (snd (fst markers));
     publish_octomap (binary_map_pub_ n) binary_map;
     publish_octomap (full_map_pub_ n) full_map] /\
  (frame_id (octomap_header binary_map) = frame /\
   stamp (octomap_header binary_map)
   = stamp (octomap_header (snd (fst binary))) /\
   octomap_body binary_map = octomap_body (snd (fst binary))) /\
  (frame_id (octomap_header full_map) = frame /\
   stamp (octomap_header full_map) = stamp (octomap_header (snd (fst full))) /\
   octomap_body full_map = octomap_body (snd (fst full))) /\
  node_after r = set_manager (set_world (snd full) (manager n)) n.
Proof.
  cbv zeta. unfold publishAll. nrun.
  destruct (generateMarkerArray (world_frame_ (manager n))
              MarkerArray_default MarkerArray_default (world (manager n)))
    as [[occ free] w1].
  cbn.
  destruct (getOctomapBinaryMsg Octomap_default w1) as [[ok2 bin] w2].
  cbn.
  destruct (getOctomapFullMsg Octomap_default w2) as [[ok3 full] w3].
  cbn.
  split; [reflexivity|]. split; [reflexivity|].
  split; [repeat split|]. split; [repeat split|].
  destruct n as [m ? ? ? ? ? ? ? ? ?]. destruct m. reflexivity.
Qed.

(** X17: which services can report failure.  [reset_map] and
    [publish_all] always answer [true], the latter also when a snapshot
    member failed; [get_map], [save_map] and [load_map] answer exactly what
    the base-class member returned, and [get_map] hands back the map as
    that member filled it, without stamping [world_frame_]. *)
Theorem service_verdicts (n : Node) (file_path : string)
  (response_map : Octomap OctomapBody) :
  node_result (publishAllCallback n) = Value true /\
  node_calls (publishAllCallback n) = node_calls (publishAll n) /\
  node_after (publishAllCallback n) = node_after (publishAll n) /\
  result (resetMapCallback (manager n)) = Value true /\
  node_result (getOctomapCallback response_map n)
  = (Value (fst (fst (getOctomapFullMsg response_map (world (manager n))))),
     snd (fst (getOctomapFullMsg response_map (world (manager n))))) /\
  node_result (saveOctomapCallback file_path n)
  = Value (fst (writeOctomapToFile file_path (world (manager n)))) /\
  result (loadOctomapCallback file_path (manager n))
  = Value (fst (loadOctomapFromFile file_path (world (manager n)))).
Proof.
  unfold publishAllCallback. rewrite nbind_run.
  unfold nret at 1 2 3. cbn [node_result node_after node_calls fst snd].
  rewrite app_nil_r.
  split; [reflexivity|]. split; [reflexivity|]. split; [reflexivity|].
  split; [reflexivity|].
  unfold getOctomapCallback, saveOctomapCallback, loadOctomapCallback.
  nrun.
  destruct (getOctomapFullMsg response_map (world (manager n)))
    as [[ok map'] w].
  destruct (writeOctomapToFile file_path (world (manager n))) as [ok' w'].
  destruct (loadOctomapFromFile file_path (world (manager n))) as [ok'' w''].
  repeat split.
Qed.

End NodeCoverage.

(** * Further runs on the concrete platform *)

Module CoverageRuns.
Import Bench NodeBench.

Lemma setParametersFromROS_defaults_witness :
  let m := fresh no_parameters dense in
  setParametersFromROS m
  = (tt, set_world ["parameters"] m,
     [setOctomapParameters_call default_parameters]).
Proof.
  refine (setParametersFromROS_defaults (fresh no_parameters dense) _).
  repeat split.
Defined.

Lemma configured_frame_is_the_lookup_target_witness :
  let later :=
    after (spin [cam0_camera_info (Some left_cam);
                 cam1_camera_info (Some right_cam);
                 pointcloud_msg (cloud_at 2)]
             (after (setParametersFromROS (fresh configured dense)))) in
  world_frame_ later = "map" /\
  tf_targets (calls (insertPointcloudWithTf (cloud_at 4) later))
  = ["map"; "map"] /\
  tf_targets (calls (insertDisparityImageWithTf (frame_at 5) later))
  = ["map"; "map"].
Proof.
  cbv zeta.
  destruct (configured_frame_is_the_lookup_target
              (fresh configured dense) "map" eq_refl) as (_ & Hlater).
  destruct (Hlater [cam0_camera_info (Some left_cam);
                    cam1_camera_info (Some right_cam);
                    pointcloud_msg (cloud_at 2)]) as (Hf & _ & Hp & Hd).
  exact (conj Hf (conj (Hp (cloud_at 4)) (Hd (frame_at 5)))).
Defined.

(** Derived calibration under a configured frame: the first disparity frame
    after the second descriptor is looked up against that frame. *)
Example derived_calibration_uses_configured_frame :
  let nh := mkNodeHandle
              (fun key => if String.eqb key "tf_frame" then Some "map"
                          else None)
              (fun _ => None) (fun _ => None) (fun _ => None)
              (fun _ => None) in
  let r := spin [disparity_msg (frame_at 1);
                 cam0_camera_info (Some left_cam);
                 cam1_camera_info (Some right_cam);
                 disparity_msg (frame_at 2)]
             (after (setParametersFromROS (fresh nh dense))) in
  tf_targets (calls r) = ["map"; "map"] /\
  Q_initialized_ (after r) = true.
Proof. vm_compute. repeat split. Qed.

Example one_sided_run :
  let r := spin one_sided (fresh no_parameters dense) in
  Q_initialized_ (after r) = false /\
  left_info_ (after r) = Some right_cam /\
  world (after r) = ["pointcloud"] /\
  filter is_throttled_warning (calls r)
  = [ROS_WARN_THROTTLE 1 not_ready_warning;
     ROS_WARN_THROTTLE 1 not_ready_warning].
Proof. vm_compute. repeat split. Qed.

Lemma one_camera_alone_never_calibrates_witness :
  still_waiting (fresh no_parameters dense) one_sided
    (spin one_sided (fresh no_parameters dense)).
Proof.
  apply (one_camera_alone_never_calibrates one_sided
           (fresh no_parameters dense) eq_refl).
  left. split; reflexivity.
Defined.

Lemma second_descriptor_enables_next_disparity_frame_witness :
  let m := after (leftCameraInfoCallback (Some left_cam)
                    (fresh configured dense)) in
  let r := spin [cam1_camera_info (Some right_cam); disparity_msg (frame_at 7)]
             m in
  filter is_insertion (calls r)
  = [insertDisparityImage_call 8%Z (frame_at 7)
       (getQForROSCameras left_cam right_cam) (640%Z, 480%Z)].
Proof.
  cbv zeta.
  destruct (second_descriptor_enables_next_disparity_frame
              (after (leftCameraInfoCallback (Some left_cam)
                        (fresh configured dense)))
              (cam1_camera_info (Some right_cam)) left_cam right_cam
              (frame_at 7) 7%Z eq_refl
              (or_introl (conj eq_refl eq_refl)) eq_refl)
    as (_ & Hins & _).
  exact Hins.
Defined.

Lemma explicit_calibration_reaches_the_engine_witness :
  let now :=
    after (spin [cam0_camera_info (Some left_cam);
                 cam1_camera_info (Some right_cam)]
             (after (setParametersFromROS (fresh configured dense)))) in
  filter is_insertion (calls (insertDisparityImageWithTf (frame_at 7) now))
  = [insertDisparityImage_call 8%Z (frame_at 7)
       (Matrix4d_init (RowMajorMap_coeff sixteen)) (1280%Z, 720%Z)].
Proof.
  cbv zeta.
  destruct (explicit_calibration_reaches_the_engine
              (fresh configured dense) sixteen
              [cam0_camera_info (Some left_cam);
               cam1_camera_info (Some right_cam)]
              (frame_at 7) 7%Z eq_refl eq_refl eq_refl) as [Hins _].
  exact Hins.
Defined.

Lemma pointcloud_commutes_with_camera_info_witness :
  let m := after (rightCameraInfoCallback (Some right_cam)
                    (fresh no_parameters latest_only)) in
  after (spin [pointcloud_msg (cloud_at 3); cam0_camera_info (Some left_cam)] m)
  = after (spin [cam0_camera_info (Some left_cam); pointcloud_msg (cloud_at 3)]
             m).
Proof.
  cbv zeta.
  destruct (pointcloud_commutes_with_camera_info
              (after (rightCameraInfoCallback (Some right_cam)
                        (fresh no_parameters latest_only)))
              (cloud_at 3) (cam0_camera_info (Some left_cam))
              (ex_intro _ (Some left_cam) (or_introl eq_refl)))
    as [Hsame _].
  exact Hsame.
Defined.

Lemma no_fallback_after_a_failed_lookup_witness :
  let m := fresh no_parameters racing in
  result (lookupTransform "cam0" "world" (mkTime 7 0) m) = None /\
  calls (lookupTransform "cam0" "world" (mkTime 7 0) m)
  = [canTransform_call "world" "cam0" (mkTime 7 0);
     lookupTransform_call "world" "cam0" (mkTime 7 0);
     lookup_error "extrapolation into the future"] /\
  tf_lookupTransform racing "world" "cam0" Time_0 = inl 5%Z.
Proof.
  cbv zeta.
  destruct (no_fallback_after_a_failed_lookup (fresh no_parameters racing)
              "cam0" "world" (mkTime 7 0) "extrapolation into the future"
              eq_refl eq_refl) as [Hr Hc].
  exact (conj Hr (conj Hc eq_refl)).
Defined.

Example constructed_with_configuration :
  let built := OctomapManager_constructor configured dense [] in
  Q_initialized_ (manager (fst built)) = true /\
  world_frame_ (manager (fst built)) = "map" /\
  full_image_size_ (manager (fst built)) = (1280%Z, 720%Z) /\
  map_publish_timer_ (fst built) = Some 1%Z /\
  disparity_sub_ (fst built)
  = Some ("disparity", 40, insertDisparityImageWithTf_fn) /\
  List.length (snd built) = 16.
Proof. vm_compute. repeat split. Qed.

Example constructed_without_configuration :
  let built := OctomapManager_constructor no_parameters dense [] in
  Q_initialized_ (manager (fst built)) = false /\
  Q_ (manager (fst built)) = Identity /\
  world_frame_ (manager (fst built)) = "world" /\
  map_publish_timer_ (fst built) = None /\
  List.length (snd built) = 15.
Proof. vm_compute. repeat split. Qed.

Example publish_all_with_failing_snapshot :
  let n := fst (OctomapManager_constructor configured dense []) in
  let r := publishAllCallback n in
  node_result r = Value true /\
  filter is_publication (node_calls r)
  = [publish_markers (occupied_nodes_pub_ n) ["occupied in map"];
     publish_markers (free_nodes_pub_ n) ["free in map"];
     publish_octomap (binary_map_pub_ n)
       (mkOctomap (mkHeader (mkTime 1 0) "map") [1%Z]);
     publish_octomap (full_map_pub_ n)
       (mkOctomap (mkHeader (mkTime 1 0) "map") [1; 2]%Z)] /\
  snd (node_result (getOctomapCallback Octomap_default n))
  = mkOctomap (mkHeader (mkTime 1 0) "odom") [1; 2]%Z.
Proof. vm_compute. repeat split. Qed.

End CoverageRuns.
